(** * Authentication / session lifecycle of the expense-splitting API

    A shallow embedding of
      - [apps/api/src/users/users.service.ts]   (module [UsersService]),
      - [apps/api/src/auth/auth.service.ts]     (module [AuthService]),
      - [apps/api/src/auth/strategies/jwt.strategy.ts] (module [JwtStrategy]),
      - the auth controller                      (module [AuthController]),
    over a relational store with the constraints of the SQL migration
    (primary keys, unique indexes on [User.email] and
    [RefreshToken.tokenHash], the foreign key of [RefreshToken.userId]).

    Every [async] method becomes a function [Db -> Db * Outcome A]: the
    store is threaded explicitly and a thrown exception is a value, so that
    the writes a method performed before it threw stay visible. *)

From Stdlib Require Import ZArith String Ascii List Bool Lia.
Import ListNotations.
Local Open Scope string_scope.

Set Implicit Arguments.

(* ------------------------------------------------------------------------- *)
(** ** Rows of the two tables *)

Module User.
(** Table "User".  The timestamp columns are filled by the database, and
    [users.service.ts] neither writes nor reads the invite code; these
    columns are left out. *)
Record t := mk {
  id : string;
  email : option string;
  passwordHash : option string;
  displayName : option string;
  isGuest : bool
}.
End User.

Module RefreshToken.
(** Table "RefreshToken"; [expiresAt] in milliseconds since the epoch. *)
Record t := mk {
  id : string;
  tokenHash : string;
  userId : string;
  expiresAt : Z
}.
End RefreshToken.

Record Db := mkDb {
  users : list User.t;
  refreshTokens : list RefreshToken.t
}.

Definition emptyDb : Db := mkDb [] [].

(* ------------------------------------------------------------------------- *)
(** ** Exceptions and the monad of asynchronous store operations *)

Inductive Exception :=
| UnauthorizedException (message : string)
| ConflictException (message : string)
| BadRequestException (message : string)
| PrismaClientKnownRequestError (code : string)
| TypeError (message : string).

Inductive Outcome (A : Type) :=
| Return (a : A)
| Throw (e : Exception).
Arguments Return {A} a.
Arguments Throw {A} e.

Definition Task (A : Type) : Type := Db -> Db * Outcome A.

Definition ret {A} (a : A) : Task A := fun db => (db, Return a).
Definition throw {A} (e : Exception) : Task A := fun db => (db, Throw e).
Definition bind {A B} (m : Task A) (k : A -> Task B) : Task B :=
  fun db =>
    match m db with
    | (db', Return a) => k a db'
    | (db', Throw e) => (db', Throw e)
    end.

Declare Scope task_scope.
Delimit Scope task_scope with task.
Notation "x <- m ;; k" := (bind m (fun x => k))
  (at level 61, m at next level, right associativity) : task_scope.
Notation "m ;;; k" := (bind m (fun _ => k))
  (at level 61, right associativity) : task_scope.
Local Open Scope task_scope.

Definition isReturn {A} (o : Outcome A) : bool :=
  match o with Return _ => true | Throw _ => false end.

(* ------------------------------------------------------------------------- *)
(** ** What a request reads from outside the store

    Identifiers are generated by the ORM, the refresh token by
    [randomBytes(40).toString('hex')], the salt by bcrypt, the time by the
    clock; one request draws each of them at most once. *)

Record Env := mkEnv {
  now : Z;              (* [new Date()] / the clock of [jwt.verify] *)
  mintNow : Z;          (* [Date.now()] in [generateTokens] *)
  genUserId : string;   (* id given to a created User row *)
  genTokenId : string;  (* id given to a created RefreshToken row *)
  randomHex : string;   (* randomBytes(40).toString('hex') *)
  salt : string         (* salt drawn by bcrypt.hash *)
}.

(* ------------------------------------------------------------------------- *)
(** ** The ORM calls the services make *)

Definition optEqb (o : option string) (s : string) : bool :=
  match o with Some x => String.eqb x s | None => false end.

Module Prisma.

Definition P2002 := "P2002". (* unique constraint failed *)
Definition P2003 := "P2003". (* foreign key constraint failed *)
Definition P2025 := "P2025". (* record to update/delete not found *)

Definition userIdIs (i : string) (u : User.t) : bool := String.eqb (User.id u) i.
Definition userEmailIs (e : string) (u : User.t) : bool := optEqb (User.email u) e.
Definition tokenIdIs (i : string) (t : RefreshToken.t) : bool :=
  String.eqb (RefreshToken.id t) i.
Definition tokenHashIs (h : string) (t : RefreshToken.t) : bool :=
  String.eqb (RefreshToken.tokenHash t) h.
Definition tokenUserIs (u : string) (t : RefreshToken.t) : bool :=
  String.eqb (RefreshToken.userId t) u.

(** [user.findUnique({ where: { id } })] *)
Definition user_findUnique_id (i : string) : Task (option User.t) :=
  fun db => (db, Return (find (userIdIs i) (users db))).

(** [user.findUnique({ where: { email } })] *)
Definition user_findUnique_email (e : string) : Task (option User.t) :=
  fun db => (db, Return (find (userEmailIs e) (users db))).

(** [user.create({ data })]: the row gets the generated id; the primary
    key and the unique index on a non-null email are enforced. *)
Definition user_create (newId : string) (em pw dn : option string) (g : bool)
  : Task User.t :=
  fun db =>
    if existsb (userIdIs newId) (users db) then (db, Throw (PrismaClientKnownRequestError P2002))
    else if match em with Some e => existsb (userEmailIs e) (users db) | None => false end
    then (db, Throw (PrismaClientKnownRequestError P2002))
    else
      let u := User.mk newId em pw dn g in
      (mkDb (users db ++ [u]) (refreshTokens db), Return u).

(** [user.update({ where: { id }, data: { email, passwordHash,
    displayName, isGuest } })]; an [undefined] displayName leaves the
    column as it is. *)
Definition applyUpdate (em pw : string) (dn : option string) (g : bool) (u : User.t)
  : User.t :=
  User.mk (User.id u) (Some em) (Some pw)
          (match dn with Some d => Some d | None => User.displayName u end) g.

Definition user_update (i : string) (em pw : string) (dn : option string) (g : bool)
  : Task User.t :=
  fun db =>
    match find (userIdIs i) (users db) with
    | None => (db, Throw (PrismaClientKnownRequestError P2025))
    | Some u =>
        if existsb (fun v => userEmailIs em v && negb (userIdIs i v)) (users db)
        then (db, Throw (PrismaClientKnownRequestError P2002))
        else
          let u' := applyUpdate em pw dn g u in
          (mkDb (map (fun v => if userIdIs i v then applyUpdate em pw dn g v else v)
                     (users db))
                (refreshTokens db),
           Return u')
    end.

(** [refreshToken.findUnique({ where: { tokenHash }, include: { user: true } })] *)
Definition refreshToken_findUnique_tokenHash (h : string)
  : Task (option (RefreshToken.t * option User.t)) :=
  fun db =>
    (db, Return
           match find (tokenHashIs h) (refreshTokens db) with
           | None => None
           | Some t => Some (t, find (userIdIs (RefreshToken.userId t)) (users db))
           end).

(** [refreshToken.create({ data: { tokenHash, userId, expiresAt } })] *)
Definition refreshToken_create (newId h uid : string) (exp : Z) : Task RefreshToken.t :=
  fun db =>
    if existsb (tokenIdIs newId) (refreshTokens db)
    then (db, Throw (PrismaClientKnownRequestError P2002))
    else if existsb (tokenHashIs h) (refreshTokens db)
    then (db, Throw (PrismaClientKnownRequestError P2002))
    else if negb (existsb (userIdIs uid) (users db))
    then (db, Throw (PrismaClientKnownRequestError P2003))
    else
      let t := RefreshToken.mk newId h uid exp in
      (mkDb (users db) (refreshTokens db ++ [t]), Return t).

(** [refreshToken.delete({ where: { id } })] throws when no row has the id. *)
Definition refreshToken_delete (i : string) : Task unit :=
  fun db =>
    if existsb (tokenIdIs i) (refreshTokens db)
    then (mkDb (users db) (filter (fun t => negb (tokenIdIs i t)) (refreshTokens db)),
          Return tt)
    else (db, Throw (PrismaClientKnownRequestError P2025)).

(** [refreshToken.deleteMany({ where })] returns the number of rows removed. *)
Definition refreshToken_deleteMany (p : RefreshToken.t -> bool) : Task nat :=
  fun db =>
    (mkDb (users db) (filter (fun t => negb (p t)) (refreshTokens db)),
     Return (length (filter p (refreshTokens db)))).

End Prisma.

(* ------------------------------------------------------------------------- *)
(** ** Values exchanged with callers *)

Module JwtPayload.
(** [interface JwtPayload { sub: string; isGuest: boolean }] *)
Record t := mk { sub : string; isGuest : bool }.
End JwtPayload.

Record TokenPair := mkTokenPair {
  accessToken : string;
  refreshToken : string
}.

Record RegisterData := mkRegisterData {
  reg_email : string;
  reg_password : string;
  reg_displayName : option string
}.

(** Process configuration as [ConfigService] sees it.  [JwtStrategy]'s
    constructor throws at start-up when JWT_ACCESS_SECRET is missing or
    empty, so a running service always has one. *)
Record Config := mkConfig {
  JWT_ACCESS_SECRET : string;
  JWT_ACCESS_EXPIRES_IN : option string;
  JWT_REFRESH_EXPIRES_IN : option string;
  NODE_ENV : option string
}.

Definition config_get (c : Config) (key : string) : option string :=
  if String.eqb key "JWT_ACCESS_SECRET" then Some (JWT_ACCESS_SECRET c)
  else if String.eqb key "JWT_ACCESS_EXPIRES_IN" then JWT_ACCESS_EXPIRES_IN c
  else if String.eqb key "JWT_REFRESH_EXPIRES_IN" then JWT_REFRESH_EXPIRES_IN c
  else if String.eqb key "NODE_ENV" then NODE_ENV c
  else None.

(** Library and built-in functions the services call; none of them is code
    of this repository, so the development is parametric in them.
    [jwt_verify] is [None] where the library throws (bad signature,
    malformed token, expired); [parseInt10] is [None] where
    [Number.isFinite(parseInt(raw, 10))] is false. *)
Class Runtime := {
  config : Config;
  sha256_hex : string -> string;
  jwt_sign : JwtPayload.t -> string -> Z -> Z -> string;
  jwt_verify : string -> string -> Z -> option JwtPayload.t;
  bcrypt_hash : string -> string -> string;
  bcrypt_compare : string -> string -> bool;
  parseInt10 : string -> option Z;
  fromAuthHeaderAsBearerToken : option string -> option string
}.

(** JavaScript truthiness of a possibly-undefined string. *)
Definition truthy (o : option string) : bool :=
  match o with
  | Some s => negb (String.eqb s "")
  | None => false
  end.

(* ------------------------------------------------------------------------- *)
(** ** users.service.ts *)

Module UsersService.
Section Methods.
Context (env : Env).

Definition findById (id : string) : Task (option User.t) :=
  Prisma.user_findUnique_id id.

Definition findByEmail (email : string) : Task (option User.t) :=
  Prisma.user_findUnique_email email.

Definition createGuest : Task User.t :=
  Prisma.user_create (genUserId env) None None None true.

Definition upgradeGuest (userId : string) (email passwordHash : string)
  (displayName : option string) : Task User.t :=
  user <- Prisma.user_findUnique_id userId ;;
  match user with
  | None => throw (BadRequestException "User is not a guest")
  | Some u =>
      if negb (User.isGuest u) then throw (BadRequestException "User is not a guest")
      else
        existing <- Prisma.user_findUnique_email email ;;
        match existing with
        | Some _ => throw (ConflictException "Email already in use")
        | None => Prisma.user_update userId email passwordHash displayName false
        end
  end.

Definition createRegistered (email passwordHash : string)
  (displayName : option string) : Task User.t :=
  existing <- Prisma.user_findUnique_email email ;;
  match existing with
  | Some _ => throw (ConflictException "Email already in use")
  | None => Prisma.user_create (genUserId env) (Some email) (Some passwordHash)
                               displayName false
  end.

End Methods.
End UsersService.

(* ------------------------------------------------------------------------- *)
(** ** auth.service.ts *)

Module AuthService.
Section Methods.
Context {R : Runtime} (env : Env).

Definition hashToken (token : string) : string := sha256_hex token.

Definition getExpiresSec (envKey : string) (defaultSec : Z) : Z :=
  let raw := config_get config envKey in
  let parsed := if truthy raw
                then match raw with Some r => parseInt10 r | None => None end
                else None in
  match parsed with
  | Some n => n
  | None => defaultSec
  end.

Definition generateTokens (userId : string) (isGuest : bool) : Task TokenPair :=
  let payload := JwtPayload.mk userId isGuest in
  let accessExpiresSec := getExpiresSec "JWT_ACCESS_EXPIRES_IN" 900 in
  let accessToken :=
    jwt_sign payload (JWT_ACCESS_SECRET config) accessExpiresSec (mintNow env) in
  let refreshToken := randomHex env in
  let tokenHash := hashToken refreshToken in
  let refreshExpiresSec := getExpiresSec "JWT_REFRESH_EXPIRES_IN" 604800 in
  let expiresAt := (mintNow env + refreshExpiresSec * 1000)%Z in
  Prisma.refreshToken_create (genTokenId env) tokenHash userId expiresAt ;;;
  ret (mkTokenPair accessToken refreshToken).

Definition createGuest : Task TokenPair :=
  user <- UsersService.createGuest env ;;
  generateTokens (User.id user) true.

Definition register (data : RegisterData) (guestUserId : option string)
  : Task TokenPair :=
  let passwordHash := bcrypt_hash (reg_password data) (salt env) in
  user <- (if truthy guestUserId
           then match guestUserId with
                | Some g => UsersService.upgradeGuest g (reg_email data) passwordHash
                                                      (reg_displayName data)
                | None => UsersService.createRegistered env (reg_email data) passwordHash
                                                        (reg_displayName data)
                end
           else UsersService.createRegistered env (reg_email data) passwordHash
                                              (reg_displayName data)) ;;
  Prisma.refreshToken_deleteMany (Prisma.tokenUserIs (User.id user)) ;;;
  generateTokens (User.id user) false.

Definition validateUser (email password : string) : Task (option User.t) :=
  user <- UsersService.findByEmail email ;;
  match user with
  | None => ret None
  | Some u =>
      if negb (truthy (User.passwordHash u)) then ret None
      else match User.passwordHash u with
           | Some h => if bcrypt_compare password h then ret (Some u) else ret None
           | None => ret None
           end
  end.

Definition login (userId : string) : Task TokenPair :=
  user <- UsersService.findById userId ;;
  match user with
  | None => throw (UnauthorizedException "Unauthorized")
  | Some u => generateTokens (User.id u) (User.isGuest u)
  end.

Definition refreshTokens (refreshToken : string) : Task TokenPair :=
  let tokenHash := hashToken refreshToken in
  stored <- Prisma.refreshToken_findUnique_tokenHash tokenHash ;;
  match stored with
  | None => throw (UnauthorizedException "Invalid refresh token")
  | Some (t, user) =>
      if (RefreshToken.expiresAt t <? now env)%Z
      then
        Prisma.refreshToken_delete (RefreshToken.id t) ;;;
        throw (UnauthorizedException "Refresh token expired")
      else
        Prisma.refreshToken_delete (RefreshToken.id t) ;;;
        match user with
        | Some u => generateTokens (User.id u) (User.isGuest u)
        | None => throw (TypeError "Cannot read properties of null (reading 'id')")
        end
  end.

Definition logout (refreshToken : option string) : Task unit :=
  if negb (truthy refreshToken) then ret tt
  else match refreshToken with
       | Some r =>
           Prisma.refreshToken_deleteMany (Prisma.tokenHashIs (hashToken r)) ;;;
           ret tt
       | None => ret tt
       end.

End Methods.
End AuthService.

(* ------------------------------------------------------------------------- *)
(** ** strategies/jwt.strategy.ts, strategies/local.strategy.ts *)

Module RequestUser.
(** The object [JwtStrategy.validate] returns, which becomes [req.user]. *)
Record t := mk { id : string; email : option string; isGuest : bool }.
End RequestUser.

Module JwtStrategy.
Section Methods.
Context {R : Runtime} (env : Env).

Definition validate (payload : JwtPayload.t) : Task RequestUser.t :=
  user <- UsersService.findById (JwtPayload.sub payload) ;;
  match user with
  | None => throw (UnauthorizedException "User not found")
  | Some u => ret (RequestUser.mk (User.id u) (User.email u) (User.isGuest u))
  end.

(** What Passport does with the strategy (steps 1-4 of the class comment):
    extract the bearer token, verify signature and expiry with
    JWT_ACCESS_SECRET, and only then call [validate]. *)
Definition authenticate (authorization : option string) : Task RequestUser.t :=
  match fromAuthHeaderAsBearerToken authorization with
  | None => throw (UnauthorizedException "Unauthorized")
  | Some token =>
      match jwt_verify token (JWT_ACCESS_SECRET config) (now env) with
      | None => throw (UnauthorizedException "Unauthorized")
      | Some payload => validate payload
      end
  end.

End Methods.
End JwtStrategy.

Module LocalStrategy.
Section Methods.
Context {R : Runtime}.

Definition validate (email password : string) : Task User.t :=
  user <- AuthService.validateUser email password ;;
  match user with
  | None => throw (UnauthorizedException "Invalid email or password")
  | Some u => ret u
  end.

End Methods.
End LocalStrategy.

(* ------------------------------------------------------------------------- *)
(** ** The auth controller *)

(** [startsWith] and [split(' ')] of JavaScript strings. *)
Fixpoint startsWith (s p : string) : bool :=
  match p, s with
  | EmptyString, _ => true
  | String c p', String d s' => Ascii.eqb c d && startsWith s' p'
  | String _ _, EmptyString => false
  end.

Fixpoint split (sep : ascii) (s : string) : list string :=
  match s with
  | EmptyString => [EmptyString]
  | String c r =>
      if Ascii.eqb c sep then EmptyString :: split sep r
      else match split sep r with
           | h :: t => String c h :: t
           | [] => [String c EmptyString]
           end
  end.

Record Request := mkRequest {
  authorization : option string;        (* req.headers.authorization *)
  cookie_refresh_token : option string  (* req.cookies?.['refresh_token'] *)
}.

Record Cookie := mkCookie {
  cookie_value : string;
  cookie_httpOnly : bool;
  cookie_secure : bool;
  cookie_maxAge : Z
}.

Record Response := mkResponse {
  body_accessToken : string;
  set_refresh_cookie : Cookie
}.

Module AuthController.
Section Methods.
Context {R : Runtime} (env : Env).

Definition setRefreshCookie (token : string) : Cookie :=
  let refreshExpiresSec := AuthService.getExpiresSec "JWT_REFRESH_EXPIRES_IN" 604800 in
  mkCookie token true (optEqb (config_get config "NODE_ENV") "production")
           (refreshExpiresSec * 1000)%Z.

Definition extractGuestUserId (req : Request) : option string :=
  match authorization req with
  | None => None
  | Some authHeader =>
      if negb (startsWith authHeader "Bearer ") then None
      else
        match nth_error (split " "%char authHeader) 1 with
        | None => None
        | Some token =>
            match jwt_verify token (JWT_ACCESS_SECRET config) (now env) with
            | None => None
            | Some payload =>
                if JwtPayload.isGuest payload then Some (JwtPayload.sub payload)
                else None
            end
        end
  end.

Definition respond (tokens : TokenPair) : Response :=
  mkResponse (accessToken tokens) (setRefreshCookie (refreshToken tokens)).

Definition createGuest : Task Response :=
  tokens <- AuthService.createGuest env ;;
  ret (respond tokens).

Definition register (dto : RegisterData) (req : Request) : Task Response :=
  let guestUserId := extractGuestUserId req in
  tokens <- AuthService.register env dto guestUserId ;;
  ret (respond tokens).

Definition login (email password : string) : Task Response :=
  user <- LocalStrategy.validate email password ;;
  tokens <- AuthService.login env (User.id user) ;;
  ret (respond tokens).

Definition refresh (req : Request) : Task Response :=
  if negb (truthy (cookie_refresh_token req))
  then throw (UnauthorizedException "No refresh token")
  else match cookie_refresh_token req with
       | None => throw (UnauthorizedException "No refresh token")
       | Some r =>
           tokens <- AuthService.refreshTokens env r ;;
           ret (respond tokens)
       end.

Definition logout (req : Request) : Task string :=
  JwtStrategy.authenticate env (authorization req) ;;;
  AuthService.logout (cookie_refresh_token req) ;;;
  ret "Logged out".

End Methods.
End AuthController.

(* ------------------------------------------------------------------------- *)
(** ** The operations of the core as one request type *)

Inductive Op :=
| OpCreateGuest
| OpRegister (data : RegisterData) (guestUserId : option string)
| OpLogin (userId : string)
| OpRefresh (refreshToken : string)
| OpLogout (refreshToken : option string).

Definition run {R : Runtime} (env : Env) (op : Op) : Task (option TokenPair) :=
  match op with
  | OpCreateGuest => p <- AuthService.createGuest env ;; ret (Some p)
  | OpRegister data g => p <- AuthService.register env data g ;; ret (Some p)
  | OpLogin u => p <- AuthService.login env u ;; ret (Some p)
  | OpRefresh r => p <- AuthService.refreshTokens env r ;; ret (Some p)
  | OpLogout r => AuthService.logout r ;;; ret None
  end.

(** A sequence of requests, each with what it reads from outside. *)
Fixpoint runAll {R : Runtime} (reqs : list (Env * Op)) (db : Db) : Db :=
  match reqs with
  | [] => db
  | (env, op) :: rest => runAll rest (fst (run env op db))
  end.


(* ------------------------------------------------------------------------- *)
(** ** Store predicates *)

Definition hashStored (db : Db) (h : string) : bool :=
  existsb (Prisma.tokenHashIs h) (refreshTokens db).
Definition tokenIdStored (db : Db) (i : string) : bool :=
  existsb (Prisma.tokenIdIs i) (refreshTokens db).
Definition userIdStored (db : Db) (i : string) : bool :=
  existsb (Prisma.userIdIs i) (users db).
Definition emailStored (db : Db) (e : string) : bool :=
  existsb (Prisma.userEmailIs e) (users db).

(** The constraints of the migration the proofs rely on: primary keys, the
    unique index on [tokenHash], the foreign key of [userId]. *)
Record wf (db : Db) : Prop := mkWf {
  wf_user_pk : NoDup (map User.id (users db));
  wf_token_pk : NoDup (map RefreshToken.id (refreshTokens db));
  wf_token_hash : NoDup (map RefreshToken.tokenHash (refreshTokens db));
  wf_token_fk : forall t, In t (refreshTokens db) ->
                          userIdStored db (RefreshToken.userId t) = true
}.



(** Account shape: a guest has neither email nor credential hash, a
    registered account has both. *)
Definition isSome {A} (o : option A) : bool :=
  match o with Some _ => true | None => false end.

Definition shapeOk (u : User.t) : bool :=
  if User.isGuest u
  then negb (isSome (User.email u)) && negb (isSome (User.passwordHash u))
  else isSome (User.email u) && isSome (User.passwordHash u).

Definition shapeInv (db : Db) : Prop := forallb shapeOk (users db) = true.

(** The record a refresh with [raw] would find. *)
Definition lookup {R : Runtime} (db : Db) (raw : string) : option RefreshToken.t :=
  find (Prisma.tokenHashIs (AuthService.hashToken raw)) (refreshTokens db).

Definition expiredAt (t : RefreshToken.t) (env : Env) : bool :=
  (RefreshToken.expiresAt t <? now env)%Z.

(** The row and the pair [generateTokens] produces for an account. *)
Definition mintedRecord {R : Runtime} (env : Env) (userId : string) : RefreshToken.t :=
  RefreshToken.mk (genTokenId env) (AuthService.hashToken (randomHex env)) userId
    (mintNow env + AuthService.getExpiresSec "JWT_REFRESH_EXPIRES_IN" 604800 * 1000)%Z.

Definition mintedPair {R : Runtime} (env : Env) (userId : string) (isGuest : bool)
  : TokenPair :=
  mkTokenPair
    (jwt_sign (JwtPayload.mk userId isGuest) (JWT_ACCESS_SECRET config)
              (AuthService.getExpiresSec "JWT_ACCESS_EXPIRES_IN" 900) (mintNow env))
    (randomHex env).

Definition addToken (db : Db) (t : RefreshToken.t) : Db :=
  mkDb (users db) (refreshTokens db ++ [t]).

Definition dropTokens (db : Db) (p : RefreshToken.t -> bool) : Db :=
  mkDb (users db) (filter (fun t => negb (p t)) (refreshTokens db)).

Definition invalidToken : Outcome TokenPair :=
  Throw (UnauthorizedException "Invalid refresh token").
Definition expiredToken : Outcome TokenPair :=
  Throw (UnauthorizedException "Refresh token expired").

(** The account rows the two branches of [register] write. *)
Definition newAccount {R : Runtime} (env : Env) (data : RegisterData) : User.t :=
  User.mk (genUserId env) (Some (reg_email data))
          (Some (bcrypt_hash (reg_password data) (salt env)))
          (reg_displayName data) false.

Definition addUser (db : Db) (u : User.t) : Db :=
  mkDb (users db ++ [u]) (refreshTokens db).

Definition upgraded {R : Runtime} (data : RegisterData) (env : Env) (u : User.t) : User.t :=
  Prisma.applyUpdate (reg_email data) (bcrypt_hash (reg_password data) (salt env))
                     (reg_displayName data) false u.

Definition updateUser (db : Db) (i : string) (f : User.t -> User.t) : Db :=
  mkDb (map (fun v => if Prisma.userIdIs i v then f v else v) (users db))
       (refreshTokens db).

(** A property of the store kept by a method, whatever it returns. *)
Definition Preserves {A} (I : Db -> Prop) (m : Task A) : Prop :=
  forall db, I db -> I (fst (m db)).

(** No row has fingerprint [h]. *)
Definition absent (h : string) (db : Db) : Prop := hashStored db h = false.



(* ------------------------------------------------------------------------- *)
(** ** users.controller.ts *)

Module SafeUser.
(** A User row without its [passwordHash]. *)
Record t := mk {
  id : string;
  email : option string;
  displayName : option string;
  isGuest : bool
}.
End SafeUser.

Module UsersController.
Section Methods.
Context {R : Runtime} (env : Env).

(** The handler of GET /users/me; [user] is [req.user]. *)
Definition getMe (user : RequestUser.t) : Task (option SafeUser.t) :=
  found <- UsersService.findById (RequestUser.id user) ;;
  match found with
  | None => ret None
  | Some u =>
      ret (Some (SafeUser.mk (User.id u) (User.email u) (User.displayName u)
                             (User.isGuest u)))
  end.

(** The route as served: [JwtAuthGuard] runs first and fills [req.user]. *)
Definition getMeRoute (req : Request) : Task (option SafeUser.t) :=
  user <- JwtStrategy.authenticate env (authorization req) ;;
  getMe user.

End Methods.
End UsersController.

(* ------------------------------------------------------------------------- *)
(** ** apps/web/src/lib/api-client.ts

    The browser-side caller of the endpoints.  The network, [JSON] and the
    reading of fields of parsed values are the browser's; the client is
    parametric in them.  A call is modelled as it runs when no other call is
    in flight, so the de-duplication flags [isRefreshing]/[refreshPromise]
    are at rest on entry and on exit and are left out. *)

Record FetchRequest := mkFetchRequest {
  fetch_url : string;
  fetch_method : option string;
  fetch_headers : list (string * string);
  fetch_body : option string;
  fetch_credentials : option string
}.

Record HttpResponse := mkHttpResponse {
  res_status : Z;
  res_statusText : string;
  res_text : string
}.

(** [res.ok] *)
Definition res_ok (r : HttpResponse) : bool :=
  (200 <=? res_status r)%Z && (res_status r <=? 299)%Z.

(** How the promise of [apiClient] rejects. *)
Inductive Rejection :=
| ApiError (statusCode : Z) (message : string)
| FetchFailed       (* [fetch] rejected *)
| SyntaxError.      (* [res.json()] rejected *)

(** [fetch] answers [None] when it rejects; [JSON_parse] is [None] on a
    syntax error; [accessTokenOf j] is [None] when reading [j.accessToken]
    throws and [Some None] when the field is undefined; [messageOf j] is
    [None] when [j.message] is null, undefined or cannot be read. *)
Class Browser := {
  World : Type;
  Json : Type;
  API_BASE : string;
  fetch : FetchRequest -> World -> World * option HttpResponse;
  JSON_parse : string -> option Json;
  JSON_stringify : Json -> string;
  jsTruthy : Json -> bool;
  accessTokenOf : Json -> option (option string);
  messageOf : Json -> option string
}.

Module ApiClient.
Section Client.
Context {B : Browser}.

(** The module state: the token held in memory, the world behind [fetch],
    and - kept only to state properties - the requests handed to [fetch]. *)
Record Client := mkClient {
  accessToken : option string;
  world : World;
  sent : list FetchRequest
}.

(** Of the fetch options only [method] and [headers] are modelled; the
    client passes the others on to [fetch] untouched. *)
Record ApiClientOptions := mkOptions {
  opt_body : option Json;
  opt_skipGuest : bool;
  opt_method : option string;
  opt_headers : list (string * string)
}.

Definition getAccessToken (c : Client) : option string := accessToken c.

Definition setAccessToken (token : option string) (c : Client) : Client :=
  mkClient token (world c) (sent c).

Definition AUTH_ENDPOINTS : list string :=
  ["/auth/login"; "/auth/register"; "/auth/guest"; "/auth/refresh"].

(** Assignment to a key of a JavaScript object, and object spread. *)
Fixpoint setHeader (k v : string) (l : list (string * string)) : list (string * string) :=
  match l with
  | [] => [(k, v)]
  | (k', v') :: r => if String.eqb k' k then (k, v) :: r else (k', v') :: setHeader k v r
  end.

Definition spread (base extra : list (string * string)) : list (string * string) :=
  fold_left (fun acc kv => setHeader (fst kv) (snd kv) acc) extra base.

Fixpoint getHeader (k : string) (l : list (string * string)) : option string :=
  match l with
  | [] => None
  | (k', v) :: r => if String.eqb k' k then Some v else getHeader k r
  end.

Definition send (req : FetchRequest) (c : Client) : Client * option HttpResponse :=
  let (w, r) := fetch req (world c) in
  (mkClient (accessToken c) w (sent c ++ [req]), r).

(** The request [doFetch] hands to [fetch]. *)
Definition requestOf (endpoint : string) (body : option Json)
  (method : option string) (optHeaders : list (string * string)) (c : Client)
  : FetchRequest :=
  let headers := spread [("Content-Type", "application/json")] optHeaders in
  let headers :=
    if truthy (accessToken c)
    then match accessToken c with
         | Some t => setHeader "Authorization" ("Bearer " ++ t) headers
         | None => headers
         end
    else headers in
  mkFetchRequest (API_BASE ++ endpoint) method headers
    (match body with
     | Some b => if jsTruthy b then Some (JSON_stringify b) else None
     | None => None
     end)
    (Some "include").

Definition doFetch (endpoint : string) (body : option Json)
  (method : option string) (optHeaders : list (string * string))
  : Client -> Client * option HttpResponse :=
  fun c => send (requestOf endpoint body method optHeaders c) c.

Definition guestRequest : FetchRequest :=
  mkFetchRequest (API_BASE ++ "/auth/guest") (Some "POST")
                 [("Content-Type", "application/json")] None (Some "include").

Definition refreshRequest : FetchRequest :=
  mkFetchRequest (API_BASE ++ "/auth/refresh") (Some "POST") [] None (Some "include").

Definition ensureGuest (c : Client) : Client :=
  match send guestRequest c with
  | (c1, Some res) =>
      if res_ok res
      then match JSON_parse (res_text res) with
           | Some data =>
               match accessTokenOf data with
               | Some t => setAccessToken t c1
               | None => c1
               end
           | None => c1
           end
      else c1
  | (c1, None) => c1
  end.

Definition refreshAccessToken (c : Client) : Client * option string :=
  match send refreshRequest c with
  | (c1, Some res) =>
      if res_ok res
      then match JSON_parse (res_text res) with
           | Some data =>
               match accessTokenOf data with
               | Some t => (setAccessToken t c1, t)
               | None => (c1, None)
               end
           | None => (c1, None)
           end
      else (c1, None)
  | (c1, None) => (c1, None)
  end.

Definition buildError (res : HttpResponse) : Rejection :=
  ApiError (res_status res)
    (match JSON_parse (res_text res) with
     | Some body =>
         match messageOf body with
         | Some m => m
         | None => res_statusText res
         end
     | None => res_statusText res
     end).

(** The request of a call of [apiClient], as built in state [c]. *)
Definition originalRequest (e : string) (o : ApiClientOptions) (c : Client)
  : FetchRequest :=
  requestOf e (opt_body o) (opt_method o) (opt_headers o) c.

(** The condition of the auto-guest interceptor. *)
Definition autoGuest (endpoint : string) (options : ApiClientOptions) (c : Client)
  : bool :=
  negb (truthy (accessToken c)) && negb (opt_skipGuest options)
  && negb (existsb (fun e => startsWith endpoint e) AUTH_ENDPOINTS).

Definition apiClient (endpoint : string) (options : ApiClientOptions)
  : Client -> Client * (Rejection + option Json) :=
  fun c =>
    let c := if autoGuest endpoint options c then ensureGuest c else c in
    match doFetch endpoint (opt_body options) (opt_method options) (opt_headers options) c
    with
    | (c1, None) => (c1, inl FetchFailed)
    | (c1, Some res) =>
        if (res_status res =? 401)%Z && truthy (accessToken c1)
        then
          match refreshAccessToken c1 with
          | (c2, newToken) =>
              if truthy newToken
              then
                match doFetch endpoint (opt_body options) (opt_method options)
                              (opt_headers options) c2 with
                | (c3, None) => (c3, inl FetchFailed)
                | (c3, Some retryRes) =>
                    if negb (res_ok retryRes) then (c3, inl (buildError retryRes))
                    else match JSON_parse (res_text retryRes) with
                         | Some j => (c3, inr (Some j))
                         | None => (c3, inl SyntaxError)
                         end
                end
              else (setAccessToken None c2, inl (buildError res))
          end
        else if negb (res_ok res) then (c1, inl (buildError res))
        else
          if String.eqb (res_text res) "" then (c1, inr None)
          else match JSON_parse (res_text res) with
               | Some j => (c1, inr (Some j))
               | None => (c1, inl SyntaxError)
               end
    end.

End Client.
End ApiClient.

(* ------------------------------------------------------------------------- *)
(** ** Further store predicates *)






(* ------------------------------------------------------------------------- *)
(** ** A concrete runtime, used to run the model on examples

    Tokens are readable: ["secret.exp.g.sub"]; the fingerprint marks its
    argument.  The theorems are stated for every runtime; this one serves
    the examples. *)

Module Demo.

Definition digit (z : Z) : ascii := ascii_of_N (Z.to_N (48 + z)).

Fixpoint showDigits (fuel : nat) (z : Z) (acc : string) : string :=
  match fuel with
  | O => acc
  | S f =>
      let acc' := String (digit (z mod 10)) acc in
      if (z / 10 =? 0)%Z then acc' else showDigits f (z / 10) acc'
  end.

Definition showZ (z : Z) : string :=
  let a := Z.abs z in
  ((if (z <? 0)%Z then "-" else "") ++ showDigits (S (Z.to_nat (Z.log2 a))) a "")%string.

Fixpoint readDigits (s : string) (acc : Z) : option Z :=
  match s with
  | EmptyString => Some acc
  | String c r =>
      let d := Z.of_N (N_of_ascii c) in
      if (48 <=? d)%Z && (d <=? 57)%Z then readDigits r (10 * acc + (d - 48))%Z else None
  end.

Definition readZ (s : string) : option Z :=
  match s with
  | EmptyString => None
  | String "-"%char r =>
      match r with
      | EmptyString => None
      | _ => option_map Z.opp (readDigits r 0%Z)
      end
  | _ => readDigits s 0%Z
  end.

Definition sign (p : JwtPayload.t) (secret : string) (expiresIn clock : Z) : string :=
  (secret ++ "." ++ showZ (clock + expiresIn * 1000) ++ "."
     ++ (if JwtPayload.isGuest p then "g" else "r") ++ "." ++ JwtPayload.sub p)%string.

Definition verify (token secret : string) (clock : Z) : option JwtPayload.t :=
  match split "."%char token with
  | [k; e; g; sub] =>
      if negb (String.eqb k secret) then None
      else match readZ e with
           | None => None
           | Some exp =>
               if (exp <? clock)%Z then None
               else if String.eqb g "g" then Some (JwtPayload.mk sub true)
               else if String.eqb g "r" then Some (JwtPayload.mk sub false)
               else None
           end
  | _ => None
  end.

Definition bearer (h : option string) : option string :=
  match h with
  | Some s => if startsWith s "Bearer " then nth_error (split " "%char s) 1 else None
  | None => None
  end.

Definition cfg : Config := mkConfig "s3cret" None None None.

Definition runtime : Runtime := {|
  config := cfg;
  sha256_hex := fun s => ("sha256:" ++ s)%string;
  jwt_sign := sign;
  jwt_verify := verify;
  bcrypt_hash := fun pw sl => ("$2b$10$" ++ sl ++ "$" ++ pw)%string;
  bcrypt_compare := fun pw h =>
    match split "$"%char h with
    | [_; _; _; _; p] => String.eqb p pw
    | _ => false
    end;
  parseInt10 := readZ;
  fromAuthHeaderAsBearerToken := bearer
|}.

Definition env1 : Env := mkEnv 1000 1000 "u1" "t1" "aa11" "salt1".
Definition env2 : Env := mkEnv 2000 2000 "u2" "t2" "bb22" "salt2".
Definition env3 : Env := mkEnv 3000 3000 "u3" "t3" "cc33" "salt3".
(** A request arriving after the default refresh lifetime of 7 days. *)
Definition envLate : Env := mkEnv 700000000 700000000 "u9" "t9" "ff99" "salt9".

(** The store after one guest session was created at [env1]. *)
Definition dbGuest : Db :=
  mkDb [User.mk "u1" None None None true]
       [RefreshToken.mk "t1" "sha256:aa11" "u1" 604801000].
Definition guestToken : RefreshToken.t :=
  RefreshToken.mk "t1" "sha256:aa11" "u1" 604801000.

(** The store after "a@b.com" registered at [env1] without a guest token. *)
Definition dbRegistered : Db :=
  mkDb [User.mk "u1" (Some "a@b.com") (Some "$2b$10$salt1$password123") None false]
       [RefreshToken.mk "t1" "sha256:aa11" "u1" 604801000].

Definition alice : RegisterData := mkRegisterData "a@b.com" "password123" None.
Definition weak : RegisterData := mkRegisterData "c@d.com" "short" None.

(** The store after the guest of [dbGuest] registered as "a@b.com" at [env2]. *)
Definition dbUpgraded : Db :=
  mkDb [User.mk "u1" (Some "a@b.com") (Some "$2b$10$salt2$password123") None false]
       [RefreshToken.mk "t2" "sha256:bb22" "u1" 604802000].


(** A browser whose network replays a queue of canned answers ([None]: the
    request fails); a parsed body is its text, and a body ["tok:<t>"] is an
    object whose [accessToken] is [<t>]. *)
Definition browser : Browser := {|
  World := list (option HttpResponse);
  Json := string;
  API_BASE := "http://localhost:3001";
  fetch := fun _ w => match w with
                      | [] => ([], None)
                      | r :: rest => (rest, r)
                      end;
  JSON_parse := fun s => if String.eqb s "" then None else Some s;
  JSON_stringify := fun j => j;
  jsTruthy := fun j => negb (String.eqb j "");
  accessTokenOf := fun j =>
    if startsWith j "tok:" then Some (Some (substring 4 (String.length j - 4) j))
    else Some None;
  messageOf := fun j => if startsWith j "msg:" then Some j else None
|}.

Definition unauthorized : HttpResponse := mkHttpResponse 401 "Unauthorized" "msg:expired".
Definition okBody (s : string) : HttpResponse := mkHttpResponse 200 "OK" s.
Definition getGroups : @ApiClient.ApiClientOptions browser :=
  @ApiClient.mkOptions browser None false (Some "GET") [].

End Demo.

Example demo_sign :
  Demo.sign (JwtPayload.mk "u1" true) "s3cret" 900 1000 = "s3cret.901000.g.u1".
Proof. reflexivity. Qed.

Example demo_verify :
  Demo.verify "s3cret.901000.g.u1" "s3cret" 2000 = Some (JwtPayload.mk "u1" true)
  /\ Demo.verify "s3cret.901000.g.u1" "s3cret" 901001 = None
  /\ Demo.verify "s3cret.901000.g.u1" "other" 2000 = None.
Proof. repeat split; reflexivity. Qed.

Example demo_dbGuest :
  @AuthService.createGuest Demo.runtime Demo.env1 emptyDb
  = (Demo.dbGuest, Return (mkTokenPair "s3cret.901000.g.u1" "aa11")).
Proof. reflexivity. Qed.

Example demo_dbRegistered :
  @AuthService.register Demo.runtime Demo.env1 Demo.alice None emptyDb
  = (Demo.dbRegistered, Return (mkTokenPair "s3cret.901000.r.u1" "aa11")).
Proof. reflexivity. Qed.

Example demo_guest_then_refresh :
  let R := Demo.runtime in
  let '(db1, o1) := AuthService.createGuest Demo.env1 emptyDb in
  let '(db2, o2) := AuthService.refreshTokens Demo.env2 "aa11" db1 in
  let '(db3, o3) := AuthService.refreshTokens Demo.env3 "aa11" db2 in
  isReturn o1 = true /\ isReturn o2 = true /\
  o3 = Throw (UnauthorizedException "Invalid refresh token") /\
  map RefreshToken.tokenHash (refreshTokens db3) = ["sha256:bb22"].
Proof. vm_compute. repeat split; reflexivity. Qed.

(* ------------------------------------------------------------------------- *)
(** ** Lists and keys *)

Unset Implicit Arguments.

Section ListFacts.
Context {A : Type}.
Implicit Types (p q : A -> bool) (l : list A).

Lemma find_none_existsb p l : find p l = None <-> existsb p l = false.
Proof.
  induction l as [|a l IH]; simpl; [tauto|].
  destruct (p a); simpl; [split; discriminate | exact IH].
Qed.

Lemma find_some_existsb p l x : find p l = Some x -> existsb p l = true.
Proof.
  intros H. destruct (existsb p l) eqn:E; [reflexivity|].
  apply find_none_existsb in E. congruence.
Qed.

Lemma existsb_filter_out p q l :
  (forall a, In a l -> p a = true -> q a = true) ->
  existsb p (filter (fun a => negb (q a)) l) = false.
Proof.
  intros H. induction l as [|a l IH]; simpl; [reflexivity|].
  destruct (q a) eqn:Q; simpl.
  - apply IH. intros b Hb. apply H. now right.
  - destruct (p a) eqn:P; simpl.
    + rewrite (H a (or_introl eq_refl) P) in Q. discriminate.
    + apply IH. intros b Hb. apply H. now right.
Qed.

Lemma existsb_filter_le p q l :
  existsb p l = false -> existsb p (filter q l) = false.
Proof.
  induction l as [|a l IH]; simpl; [easy|].
  intros H. apply orb_false_iff in H as [Ha Hl].
  destruct (q a); simpl; [rewrite Ha|]; auto.
Qed.

Lemma existsb_snoc p l a : existsb p (l ++ [a]) = existsb p l || p a.
Proof. rewrite existsb_app. simpl. now rewrite orb_false_r. Qed.

Lemma existsb_false_In p l a : existsb p l = false -> In a l -> p a = false.
Proof.
  intros H Ha. destruct (p a) eqn:E; [|reflexivity].
  assert (existsb p l = true) by (apply existsb_exists; eauto). congruence.
Qed.

Lemma NoDup_key_inj (key : A -> string) l a b :
  NoDup (map key l) -> In a l -> In b l -> key a = key b -> a = b.
Proof.
  induction l as [|x l IH]; simpl; [tauto|].
  intros Hnd Ha Hb Hk. inversion Hnd as [|? ? Hx Hl]; subst.
  destruct Ha as [->|Ha], Hb as [->|Hb]; auto.
  - exfalso. apply Hx. rewrite Hk. now apply in_map.
  - exfalso. apply Hx. rewrite <- Hk. now apply in_map.
Qed.

Lemma NoDup_map_filter (key : A -> string) q l :
  NoDup (map key l) -> NoDup (map key (filter q l)).
Proof.
  induction l as [|x l IH]; simpl; [auto|].
  intros Hnd. inversion Hnd as [|? ? Hx Hl]; subst.
  destruct (q x); simpl; auto. constructor; auto.
  intros Hin. apply Hx. apply in_map_iff in Hin as (y & Hy & Hin).
  apply filter_In in Hin as [Hin _]. apply in_map_iff. eauto.
Qed.

Lemma NoDup_map_snoc (key : A -> string) l a :
  NoDup (map key l) -> ~ In (key a) (map key l) -> NoDup (map key (l ++ [a])).
Proof.
  intros Hnd Hn. rewrite map_app. simpl.
  apply NoDup_app; [exact Hnd | repeat constructor; simpl; tauto |].
  intros x Hx [<-|[]]. contradiction.
Qed.

End ListFacts.

Lemma existsb_key_In {A} (key : A -> string) (l : list A) (k : string) :
  existsb (fun a => String.eqb (key a) k) l = false <-> ~ In k (map key l).
Proof.
  induction l as [|a l IH]; simpl; [tauto|].
  rewrite orb_false_iff, IH. destruct (String.eqb_spec (key a) k); intuition congruence.
Qed.

(* ------------------------------------------------------------------------- *)
(** ** Equations of the token helpers *)

Section TokenFacts.
Context {R : Runtime}.
Implicit Types (env : Env) (db : Db) (t : RefreshToken.t) (raw : string).

Lemma generateTokens_eq env uid g db :
  AuthService.generateTokens env uid g db =
  if tokenIdStored db (genTokenId env)
  then (db, Throw (PrismaClientKnownRequestError Prisma.P2002))
  else if hashStored db (AuthService.hashToken (randomHex env))
  then (db, Throw (PrismaClientKnownRequestError Prisma.P2002))
  else if negb (userIdStored db uid)
  then (db, Throw (PrismaClientKnownRequestError Prisma.P2003))
  else (addToken db (mintedRecord env uid), Return (mintedPair env uid g)).
Proof.
  unfold AuthService.generateTokens, bind, Prisma.refreshToken_create,
    tokenIdStored, hashStored, userIdStored.
  destruct (existsb _ (refreshTokens db)); [reflexivity|].
  destruct (existsb _ (refreshTokens db)); [reflexivity|].
  destruct (existsb _ (users db)); reflexivity.
Qed.

Lemma generateTokens_Return env uid g db db' pair :
  AuthService.generateTokens env uid g db = (db', Return pair) ->
  tokenIdStored db (genTokenId env) = false /\
  hashStored db (AuthService.hashToken (randomHex env)) = false /\
  userIdStored db uid = true /\
  db' = addToken db (mintedRecord env uid) /\ pair = mintedPair env uid g.
Proof.
  rewrite generateTokens_eq.
  destruct (tokenIdStored _ _); [discriminate|].
  destruct (hashStored _ _); [discriminate|].
  destruct (userIdStored _ _); simpl; [|discriminate].
  intros H. inversion H. auto.
Qed.


(** Whatever it returns, [generateTokens] leaves the accounts alone and
    never removes a row. *)
Lemma generateTokens_users env uid g db :
  users (fst (AuthService.generateTokens env uid g db)) = users db.
Proof.
  rewrite generateTokens_eq.
  destruct (tokenIdStored db _); [reflexivity|].
  destruct (hashStored db _); [reflexivity|].
  destruct (userIdStored db _); reflexivity.
Qed.

Lemma find_user_id i l u : find (Prisma.userIdIs i) l = Some u -> User.id u = i.
Proof.
  intros H. apply find_some in H as [_ H]. now apply String.eqb_eq in H.
Qed.

Lemma find_token_hash h l t :
  find (Prisma.tokenHashIs h) l = Some t -> In t l /\ RefreshToken.tokenHash t = h.
Proof.
  intros H. apply find_some in H as [Hin H]. split; [exact Hin|].
  now apply String.eqb_eq in H.
Qed.

Lemma refreshTokens_not_found env raw db :
  lookup db raw = None ->
  AuthService.refreshTokens env raw db = (db, invalidToken).
Proof.
  unfold lookup, AuthService.refreshTokens, bind,
    Prisma.refreshToken_findUnique_tokenHash.
  intros ->. reflexivity.
Qed.

Lemma refreshTokens_found env raw db t :
  lookup db raw = Some t ->
  AuthService.refreshTokens env raw db =
  let db1 := dropTokens db (Prisma.tokenIdIs (RefreshToken.id t)) in
  if expiredAt t env then (db1, expiredToken)
  else match find (Prisma.userIdIs (RefreshToken.userId t)) (users db) with
       | Some u => AuthService.generateTokens env (User.id u) (User.isGuest u) db1
       | None => (db1, Throw (TypeError "Cannot read properties of null (reading 'id')"))
       end.
Proof.
  unfold lookup, AuthService.refreshTokens, bind,
    Prisma.refreshToken_findUnique_tokenHash.
  intros H. rewrite H. cbv zeta.
  assert (Hex : existsb (Prisma.tokenIdIs (RefreshToken.id t)) (refreshTokens db) = true).
  { apply existsb_exists. exists t. split.
    - now apply find_some in H.
    - apply String.eqb_refl. }
  unfold expiredAt, Prisma.refreshToken_delete.
  destruct (RefreshToken.expiresAt t <? now env)%Z; rewrite Hex; [reflexivity|].
  destruct (find _ (users db)); reflexivity.
Qed.

(** With unique fingerprints, deleting the found row by id leaves no row
    with its fingerprint. *)
Lemma lookup_dropped raw db t :
  wf db -> lookup db raw = Some t ->
  hashStored (dropTokens db (Prisma.tokenIdIs (RefreshToken.id t)))
             (AuthService.hashToken raw) = false.
Proof.
  intros Hwf H. apply find_token_hash in H as [Hin Hh].
  unfold hashStored, dropTokens. simpl. apply existsb_filter_out.
  intros a Ha Hp. apply String.eqb_eq in Hp.
  assert (a = t) as ->.
  { apply (NoDup_key_inj RefreshToken.tokenHash (refreshTokens db));
      [apply Hwf | assumption | assumption | congruence]. }
  apply String.eqb_refl.
Qed.

Lemma hashStored_None db raw :
  hashStored db (AuthService.hashToken raw) = false <-> lookup db raw = None.
Proof. unfold hashStored, lookup. symmetry. apply find_none_existsb. Qed.

Lemma hashStored_addToken db t h :
  hashStored (addToken db t) h = hashStored db h || String.eqb (RefreshToken.tokenHash t) h.
Proof. unfold hashStored, addToken. simpl. rewrite existsb_snoc. reflexivity. Qed.

Lemma lookup_addToken_new db t raw :
  hashStored db (AuthService.hashToken raw) = false ->
  RefreshToken.tokenHash t = AuthService.hashToken raw ->
  lookup (addToken db t) raw = Some t.
Proof.
  unfold hashStored, lookup, addToken. simpl. intros Hn Ht.
  induction (refreshTokens db) as [|a l IH]; simpl in *.
  - unfold Prisma.tokenHashIs. rewrite Ht, String.eqb_refl. reflexivity.
  - apply orb_false_iff in Hn as [Ha Hl]. rewrite Ha. auto.
Qed.


End TokenFacts.

(* ------------------------------------------------------------------------- *)
(** ** Rules for [Preserves] *)

Section PreservesRules.
Context (I : Db -> Prop).

Lemma Preserves_ret {A} (a : A) : Preserves I (ret a).
Proof. intros db H. exact H. Qed.

Lemma Preserves_throw {A} e : Preserves I (@throw A e).
Proof. intros db H. exact H. Qed.

Lemma Preserves_bind {A B} (m : Task A) (k : A -> Task B) :
  Preserves I m -> (forall a, Preserves I (k a)) -> Preserves I (bind m k).
Proof.
  intros Hm Hk db H. unfold bind. specialize (Hm db H).
  destruct (m db) as [db' [a|e]]; simpl in *; [now apply Hk | exact Hm].
Qed.

Lemma Preserves_find_id i : Preserves I (Prisma.user_findUnique_id i).
Proof. intros db H. exact H. Qed.

Lemma Preserves_find_email e : Preserves I (Prisma.user_findUnique_email e).
Proof. intros db H. exact H. Qed.

Lemma Preserves_find_hash h : Preserves I (Prisma.refreshToken_findUnique_tokenHash h).
Proof. intros db H. exact H. Qed.

End PreservesRules.

Create HintDb preserves.
#[local] Hint Resolve Preserves_ret Preserves_throw Preserves_find_id
  Preserves_find_email Preserves_find_hash : preserves.

(** Decompose a method into the ORM calls it makes. *)
Ltac preserves_step :=
  match goal with
  | |- Preserves _ (bind _ _) => apply Preserves_bind; [|intros ?]
  | |- Preserves _ (if ?b then _ else _) => destruct b
  | |- Preserves _ (match ?x with Some _ => _ | None => _ end) => destruct x
  | |- Preserves _ (match ?x with (_, _) => _ end) => destruct x
  | |- Preserves _ _ => solve [auto with preserves]
  end.
Ltac preserves := repeat preserves_step.

(** An invariant is kept by every method of the services as soon as the
    five writes of the ORM keep it. *)
Section ServicePreserves.
Context {R : Runtime} (I : Db -> Prop) (env : Env).
Hypothesis Hcreate_guest :
  Preserves I (Prisma.user_create (genUserId env) None None None true).
Hypothesis Hcreate_registered : forall em pw dn,
  Preserves I (Prisma.user_create (genUserId env) (Some em) (Some pw) dn false).
Hypothesis Hupdate : forall i em pw dn, Preserves I (Prisma.user_update i em pw dn false).
Hypothesis Hmint : forall uid g, Preserves I (AuthService.generateTokens env uid g).
Hypothesis Hdelete : forall i, Preserves I (Prisma.refreshToken_delete i).
Hypothesis HdeleteMany : forall p, Preserves I (Prisma.refreshToken_deleteMany p).

Lemma Preserves_UsersService_createGuest : Preserves I (UsersService.createGuest env).
Proof. apply Hcreate_guest. Qed.

Lemma Preserves_UsersService_createRegistered em pw dn :
  Preserves I (UsersService.createRegistered env em pw dn).
Proof. unfold UsersService.createRegistered. preserves. Qed.

Lemma Preserves_UsersService_upgradeGuest i em pw dn :
  Preserves I (UsersService.upgradeGuest i em pw dn).
Proof. unfold UsersService.upgradeGuest. preserves. Qed.

Lemma Preserves_createGuest : Preserves I (AuthService.createGuest env).
Proof. unfold AuthService.createGuest. preserves. Qed.

Lemma Preserves_register data g : Preserves I (AuthService.register env data g).
Proof.
  unfold AuthService.register. preserves;
    auto using Preserves_UsersService_createRegistered,
               Preserves_UsersService_upgradeGuest.
Qed.

Lemma Preserves_login u : Preserves I (AuthService.login env u).
Proof. unfold AuthService.login, UsersService.findById. preserves. Qed.

Lemma Preserves_refreshTokens raw : Preserves I (AuthService.refreshTokens env raw).
Proof. unfold AuthService.refreshTokens. preserves. Qed.

Lemma Preserves_logout raw : Preserves I (AuthService.logout raw).
Proof. unfold AuthService.logout. preserves. Qed.

Lemma Preserves_run op : Preserves I (run env op).
Proof.
  destruct op; unfold run; preserves;
    auto using Preserves_createGuest, Preserves_register, Preserves_login,
               Preserves_refreshTokens, Preserves_logout.
Qed.

End ServicePreserves.

(* ------------------------------------------------------------------------- *)
(** ** Three invariants of the store *)

Section Invariants.
Context {R : Runtime}.

(** *** A fingerprint that is absent stays absent unless minted again *)

Lemma absent_mint h env uid g :
  AuthService.hashToken (randomHex env) <> h ->
  Preserves (absent h) (AuthService.generateTokens env uid g).
Proof.
  intros Hne db H. rewrite generateTokens_eq.
  destruct (tokenIdStored db _); [exact H|].
  destruct (hashStored db (AuthService.hashToken _)); [exact H|].
  destruct (userIdStored db _); [|exact H]. simpl.
  unfold absent. rewrite hashStored_addToken, H. simpl.
  now apply String.eqb_neq.
Qed.

Lemma absent_tokens_filter h q db :
  absent h db -> absent h (mkDb (users db) (filter q (refreshTokens db))).
Proof. apply existsb_filter_le. Qed.

Lemma absent_run h env op :
  AuthService.hashToken (randomHex env) <> h -> Preserves (absent h) (run env op).
Proof.
  intros Hne. apply Preserves_run.
  - intros db H. unfold Prisma.user_create.
    destruct (existsb _ (users db)); exact H.
  - intros em pw dn db H. unfold Prisma.user_create.
    destruct (existsb _ (users db)); [exact H|].
    destruct (existsb _ (users db)); exact H.
  - intros i em pw dn db H. unfold Prisma.user_update.
    destruct (find _ (users db)); [|exact H].
    destruct (existsb _ (users db)); exact H.
  - intros uid g. now apply absent_mint.
  - intros i db H. unfold Prisma.refreshToken_delete.
    destruct (existsb _ (refreshTokens db)); [|exact H].
    now apply absent_tokens_filter.
  - intros p db H. now apply absent_tokens_filter.
Qed.

Lemma absent_runAll h reqs db :
  Forall (fun r => AuthService.hashToken (randomHex (fst r)) <> h) reqs ->
  absent h db -> absent h (runAll reqs db).
Proof.
  intros HF. revert db. induction HF as [|[env op] reqs Hne _ IH]; intros db H.
  - exact H.
  - simpl. apply IH. now apply absent_run.
Qed.

(** *** Account shape *)

Lemma shapeInv_snoc db u :
  shapeInv db -> shapeOk u = true -> shapeInv (mkDb (users db ++ [u]) (refreshTokens db)).
Proof.
  unfold shapeInv. simpl. intros H Hu. rewrite forallb_app, H. simpl. now rewrite Hu.
Qed.

Lemma shapeOk_applyUpdate em pw dn u : shapeOk (Prisma.applyUpdate em pw dn false u) = true.
Proof. reflexivity. Qed.

Lemma shapeInv_run env op : Preserves shapeInv (run env op).
Proof.
  apply Preserves_run.
  - intros db H. unfold Prisma.user_create.
    destruct (existsb _ (users db)); [exact H|]. simpl. now apply shapeInv_snoc.
  - intros em pw dn db H. unfold Prisma.user_create.
    destruct (existsb _ (users db)); [exact H|].
    destruct (existsb _ (users db)); [exact H|]. simpl. now apply shapeInv_snoc.
  - intros i em pw dn db H. unfold Prisma.user_update.
    destruct (find _ (users db)); [|exact H].
    destruct (existsb _ (users db)); [exact H|]. simpl.
    unfold shapeInv in *. simpl. rewrite forallb_forall in *.
    intros x Hx. apply in_map_iff in Hx as (v & <- & Hv).
    destruct (Prisma.userIdIs i v); [apply shapeOk_applyUpdate | now apply H].
  - intros uid g db H. unfold shapeInv. now rewrite generateTokens_users.
  - intros i db H. unfold Prisma.refreshToken_delete.
    destruct (existsb _ (refreshTokens db)); exact H.
  - intros p db H. exact H.
Qed.

(** *** The constraints of the schema *)

Lemma wf_tokens_filter q db :
  wf db -> wf (mkDb (users db) (filter q (refreshTokens db))).
Proof.
  intros [H1 H2 H3 H4]. constructor; simpl.
  - exact H1.
  - now apply NoDup_map_filter.
  - now apply NoDup_map_filter.
  - intros t Ht. apply filter_In in Ht as [Ht _]. now apply H4.
Qed.

Lemma wf_user_create newId em pw dn g : Preserves wf (Prisma.user_create newId em pw dn g).
Proof.
  intros db [H1 H2 H3 H4]. unfold Prisma.user_create.
  destruct (existsb (Prisma.userIdIs newId) (users db)) eqn:E; [now constructor|].
  destruct (match em with Some e => _ | None => _ end); [now constructor|].
  constructor; simpl; auto.
  - apply NoDup_map_snoc; [exact H1|]. simpl.
    now apply (existsb_key_In User.id) in E.
  - intros t Ht. unfold userIdStored. simpl. rewrite existsb_snoc.
    apply H4 in Ht. unfold userIdStored in Ht. now rewrite Ht.
Qed.

Lemma map_id_update i f (l : list User.t) :
  (forall v, User.id (f v) = User.id v) ->
  map User.id (map (fun v => if Prisma.userIdIs i v then f v else v) l) = map User.id l.
Proof.
  intros Hf. rewrite map_map. apply map_ext. intros v.
  destruct (Prisma.userIdIs i v); auto.
Qed.

Lemma existsb_userId_map j (f : User.t -> User.t) l :
  (forall v, User.id (f v) = User.id v) ->
  existsb (Prisma.userIdIs j) (map f l) = existsb (Prisma.userIdIs j) l.
Proof.
  intros Hf. induction l as [|a l IH]; simpl; [reflexivity|].
  unfold Prisma.userIdIs at 1 3. now rewrite Hf, IH.
Qed.

Lemma wf_user_update i em pw dn g : Preserves wf (Prisma.user_update i em pw dn g).
Proof.
  intros db [H1 H2 H3 H4]. unfold Prisma.user_update.
  destruct (find _ (users db)) as [u|]; [|now constructor].
  destruct (existsb _ (users db)); [now constructor|].
  constructor; simpl; auto.
  - rewrite map_id_update; auto.
  - intros x Hx. unfold userIdStored. simpl.
    rewrite existsb_userId_map; [now apply H4|].
    intros v. destruct (Prisma.userIdIs i v); reflexivity.
Qed.

Lemma wf_mint env uid g : Preserves wf (AuthService.generateTokens env uid g).
Proof.
  intros db Hwf. rewrite generateTokens_eq.
  destruct (tokenIdStored db _) eqn:Ei; [exact Hwf|].
  destruct (hashStored db _) eqn:Eh; [exact Hwf|].
  destruct (userIdStored db uid) eqn:Eu; [|exact Hwf]. simpl.
  destruct Hwf as [H1 H2 H3 H4]. constructor; simpl; auto.
  - apply NoDup_map_snoc; [exact H2|].
    now apply (existsb_key_In RefreshToken.id) in Ei.
  - apply NoDup_map_snoc; [exact H3|].
    now apply (existsb_key_In RefreshToken.tokenHash) in Eh.
  - intros t Ht. apply in_app_or in Ht as [Ht|[<-|[]]]; [now apply H4 | exact Eu].
Qed.

Lemma wf_run env op : Preserves wf (run env op).
Proof.
  apply Preserves_run; intros.
  - apply wf_user_create.
  - apply wf_user_create.
  - apply wf_user_update.
  - apply wf_mint.
  - intros db H. unfold Prisma.refreshToken_delete.
    destruct (existsb _ (refreshTokens db)); [|exact H]. now apply wf_tokens_filter.
  - intros db H. now apply wf_tokens_filter.
Qed.


Lemma wf_runAll reqs : forall db, wf db -> wf (runAll reqs db).
Proof.
  induction reqs as [|[env op] reqs IH]; intros db H; simpl; [exact H|].
  apply IH. now apply wf_run.
Qed.

End Invariants.

(** Schema constraints of a store given in full are checked by running
    through its rows. *)
Ltac wf_by_computation :=
  constructor; simpl;
  [ repeat constructor; simpl; intuition discriminate
  | repeat constructor; simpl; intuition discriminate
  | repeat constructor; simpl; intuition discriminate
  | intros ? Hin; repeat (destruct Hin as [<-|Hin]; [reflexivity|]); destruct Hin ].

Lemma wf_dbGuest : wf Demo.dbGuest.
Proof. wf_by_computation. Defined.

Lemma wf_dbRegistered : wf Demo.dbRegistered.
Proof. wf_by_computation. Defined.

(* ------------------------------------------------------------------------- *)
(** ** Refresh: rotation and expiry *)

Section Refresh.
Context {R : Runtime}.


Lemma dropped_not_In db t :
  ~ In t (refreshTokens (dropTokens db (Prisma.tokenIdIs (RefreshToken.id t)))).
Proof.
  simpl. intros H. apply filter_In in H as [_ H].
  unfold Prisma.tokenIdIs in H. now rewrite String.eqb_refl in H.
Qed.


(** C3 - Expiry enforcement.  A refresh call with a raw token whose stored
    expiry is before the current time throws Unauthorized ("Refresh token
    expired") and removes that row (and nothing else); a second refresh
    call with the same raw value, at any time, throws Unauthorized through
    the not-found path ("Invalid refresh token") and changes nothing. *)
Theorem expired_refresh_rejected env raw db t :
  wf db -> lookup db raw = Some t -> expiredAt t env = true ->
  let db1 := dropTokens db (Prisma.tokenIdIs (RefreshToken.id t)) in
  AuthService.refreshTokens env raw db = (db1, expiredToken)
  /\ ~ In t (refreshTokens db1)
  /\ users db1 = users db
  /\ (forall x, In x (refreshTokens db) -> x <> t -> In x (refreshTokens db1))
  /\ lookup db1 raw = None
  /\ (forall env', AuthService.refreshTokens env' raw db1 = (db1, invalidToken)).
Proof.
  intros Hwf Hlk Hexp db1.
  assert (Hnone : lookup db1 raw = None).
  { apply hashStored_None. now apply lookup_dropped. }
  split; [|split; [|split; [|split; [|split]]]].
  - rewrite (refreshTokens_found env _ _ _ Hlk). cbv zeta. now rewrite Hexp.
  - apply dropped_not_In.
  - reflexivity.
  - intros x Hx Hne. simpl. apply filter_In. split; [exact Hx|].
    apply negb_true_iff. destruct (Prisma.tokenIdIs _ x) eqn:E; [|reflexivity].
    exfalso. apply Hne. apply String.eqb_eq in E.
    apply (NoDup_key_inj RefreshToken.id (refreshTokens db));
      [apply Hwf | exact Hx | now apply (find_token_hash _ _ _ Hlk) | exact E].
  - exact Hnone.
  - intros env'. now apply refreshTokens_not_found.
Qed.

End Refresh.


Lemma expired_refresh_rejected_witness :
  wf Demo.dbGuest /\
  @lookup Demo.runtime Demo.dbGuest "aa11" = Some Demo.guestToken /\
  expiredAt Demo.guestToken Demo.envLate = true /\
  @AuthService.refreshTokens Demo.runtime Demo.envLate "aa11" Demo.dbGuest
  = (mkDb (users Demo.dbGuest) [], expiredToken) /\
  @AuthService.refreshTokens Demo.runtime Demo.env3 "aa11" (mkDb (users Demo.dbGuest) [])
  = (mkDb (users Demo.dbGuest) [], invalidToken).
Proof.
  assert (Hl : @lookup Demo.runtime Demo.dbGuest "aa11" = Some Demo.guestToken)
    by reflexivity.
  assert (He : expiredAt Demo.guestToken Demo.envLate = true) by reflexivity.
  repeat (split; [assumption || exact wf_dbGuest|]).
  destruct (@expired_refresh_rejected Demo.runtime Demo.envLate "aa11" Demo.dbGuest
              Demo.guestToken wf_dbGuest Hl He)
    as (Hr & _ & _ & _ & _ & Hagain).
  split; [exact Hr | exact (Hagain Demo.env3)].
Defined.

(* ------------------------------------------------------------------------- *)
(** ** Registration *)

Section Register.
Context {R : Runtime}.
Implicit Types (env : Env) (db : Db) (data : RegisterData).

Lemma createRegistered_eq env em pw dn db :
  UsersService.createRegistered env em pw dn db =
  if emailStored db em then (db, Throw (ConflictException "Email already in use"))
  else if userIdStored db (genUserId env)
  then (db, Throw (PrismaClientKnownRequestError Prisma.P2002))
  else (addUser db (User.mk (genUserId env) (Some em) (Some pw) dn false),
        Return (User.mk (genUserId env) (Some em) (Some pw) dn false)).
Proof.
  unfold UsersService.createRegistered, bind, Prisma.user_findUnique_email,
    emailStored, userIdStored, Prisma.user_create.
  destruct (find (Prisma.userEmailIs em) (users db)) as [u|] eqn:E.
  - now rewrite (find_some_existsb _ _ _ E).
  - apply find_none_existsb in E. rewrite E.
    destruct (existsb _ (users db)); reflexivity.
Qed.

Lemma upgradeGuest_eq i em pw dn db :
  UsersService.upgradeGuest i em pw dn db =
  match find (Prisma.userIdIs i) (users db) with
  | None => (db, Throw (BadRequestException "User is not a guest"))
  | Some u =>
      if negb (User.isGuest u) then (db, Throw (BadRequestException "User is not a guest"))
      else if emailStored db em
      then (db, Throw (ConflictException "Email already in use"))
      else (updateUser db i (Prisma.applyUpdate em pw dn false),
            Return (Prisma.applyUpdate em pw dn false u))
  end.
Proof.
  unfold UsersService.upgradeGuest, bind, Prisma.user_findUnique_id,
    Prisma.user_findUnique_email, emailStored, Prisma.user_update.
  destruct (find (Prisma.userIdIs i) (users db)) as [u|] eqn:Eu; [|reflexivity].
  destruct (User.isGuest u); simpl; [|reflexivity].
  destruct (find (Prisma.userEmailIs em) (users db)) as [v|] eqn:E.
  - now rewrite (find_some_existsb _ _ _ E).
  - apply find_none_existsb in E. rewrite E, Eu.
    assert (existsb (fun v => Prisma.userEmailIs em v && negb (Prisma.userIdIs i v))
                    (users db) = false) as ->; [|reflexivity].
    clear Eu. induction (users db) as [|a l IH]; simpl in *; [reflexivity|].
    apply orb_false_iff in E as [Ea El]. now rewrite Ea, IH.
Qed.

(** The two branches of [register], spelled out. *)
Lemma register_new_eq env data g db :
  truthy g = false ->
  AuthService.register env data g db =
  if emailStored db (reg_email data)
  then (db, Throw (ConflictException "Email already in use"))
  else if userIdStored db (genUserId env)
  then (db, Throw (PrismaClientKnownRequestError Prisma.P2002))
  else AuthService.generateTokens env (genUserId env) false
         (dropTokens (addUser db (newAccount env data))
                     (Prisma.tokenUserIs (genUserId env))).
Proof.
  intros Hg. unfold AuthService.register. rewrite Hg. unfold bind at 1.
  rewrite createRegistered_eq.
  destruct (emailStored db _); [reflexivity|].
  destruct (userIdStored db _); reflexivity.
Qed.

Lemma register_upgrade_eq env data g db :
  g <> "" ->
  AuthService.register env data (Some g) db =
  match find (Prisma.userIdIs g) (users db) with
  | None => (db, Throw (BadRequestException "User is not a guest"))
  | Some u =>
      if negb (User.isGuest u) then (db, Throw (BadRequestException "User is not a guest"))
      else if emailStored db (reg_email data)
      then (db, Throw (ConflictException "Email already in use"))
      else AuthService.generateTokens env (User.id u) false
             (dropTokens (updateUser db g (upgraded data env))
                         (Prisma.tokenUserIs (User.id u)))
  end.
Proof.
  intros Hg. unfold AuthService.register.
  assert (truthy (Some g) = true) as ->.
  { simpl. apply negb_true_iff. now apply String.eqb_neq. }
  unfold bind at 1. rewrite upgradeGuest_eq.
  destruct (find _ (users db)) as [u|]; [|reflexivity].
  destruct (User.isGuest u); simpl; [|reflexivity].
  destruct (emailStored db _); reflexivity.
Qed.

Lemma truthy_cases (g : option string) :
  truthy g = false \/ exists s, g = Some s /\ s <> "".
Proof.
  destruct g as [s|]; simpl; [|now left].
  destruct (String.eqb_spec s ""); simpl; [now left|right; eauto].
Qed.

End Register.

Section RegisterTheorems.
Context {R : Runtime}.
Implicit Types (env : Env) (db : Db) (data : RegisterData).

Lemma find_snoc_new {A} (p : A -> bool) l a :
  existsb p l = false -> p a = true -> find p (l ++ [a]) = Some a.
Proof.
  intros Hl Ha. induction l as [|x l IH]; simpl in *; [now rewrite Ha|].
  apply orb_false_iff in Hl as [Hx Hl]. rewrite Hx. auto.
Qed.

Lemma find_updateUser i f l u :
  (forall v, User.id (f v) = User.id v) ->
  find (Prisma.userIdIs i) l = Some u ->
  find (Prisma.userIdIs i) (map (fun v => if Prisma.userIdIs i v then f v else v) l)
  = Some (f u).
Proof.
  intros Hf. induction l as [|a l IH]; simpl; [discriminate|].
  destruct (Prisma.userIdIs i a) eqn:E.
  - intros [= ->]. unfold Prisma.userIdIs in *. now rewrite Hf, E.
  - rewrite E. exact IH.
Qed.

(** Bulk deletion by owner followed by one insertion: a row of that owner
    whose fingerprint differs from the inserted one is gone and its
    fingerprint resolves to nothing. *)
Lemma bulk_delete_invalidates db dbX uid m t raw :
  wf db -> refreshTokens dbX = refreshTokens db ->
  hashStored db (RefreshToken.tokenHash m) = false ->
  In t (refreshTokens db) -> RefreshToken.userId t = uid ->
  RefreshToken.tokenHash t = AuthService.hashToken raw ->
  ~ In t (refreshTokens (addToken (dropTokens dbX (Prisma.tokenUserIs uid)) m))
  /\ lookup (addToken (dropTokens dbX (Prisma.tokenUserIs uid)) m) raw = None.
Proof.
  intros Hwf HX Hm Hin Hu Hh.
  assert (Hne : RefreshToken.tokenHash m <> AuthService.hashToken raw).
  { intros E. rewrite E, <- Hh in Hm.
    pose proof (existsb_false_In _ _ t Hm Hin) as F.
    unfold Prisma.tokenHashIs in F. now rewrite String.eqb_refl in F. }
  split.
  - simpl. rewrite HX. intros H. apply in_app_or in H as [H|[H|[]]].
    + apply filter_In in H as [_ H]. unfold Prisma.tokenUserIs in H.
      rewrite Hu, String.eqb_refl in H. discriminate.
    + apply Hne. now rewrite H.
  - apply hashStored_None. rewrite hashStored_addToken.
    apply orb_false_iff. split; [|now apply String.eqb_neq].
    unfold hashStored, dropTokens. simpl. rewrite HX. apply existsb_filter_out.
    intros a Ha Hp. apply String.eqb_eq in Hp.
    assert (a = t) as ->.
    { apply (NoDup_key_inj RefreshToken.tokenHash (refreshTokens db));
        [apply Hwf | assumption | assumption | congruence]. }
    unfold Prisma.tokenUserIs. rewrite Hu. apply String.eqb_refl.
Qed.

(** C2 - Session invalidation on registration.  After a register call that
    returns (fresh account or guest upgrade), with the store consistent with
    the schema and the minted fingerprint not already held, there is an
    account id [uid] such that the returned refresh token's row is bound to
    [uid], the account [uid] is registered under the submitted email, and
    every row that was bound to [uid] before the call is gone: a refresh
    call with the raw value of any such row throws Unauthorized and changes
    nothing. *)
Theorem register_invalidates_sessions env data g db db' pair :
  wf db ->
  hashStored db (AuthService.hashToken (randomHex env)) = false ->
  AuthService.register env data g db = (db', Return pair) ->
  exists uid,
    lookup db' (refreshToken pair) = Some (mintedRecord env uid)
    /\ (exists u, find (Prisma.userIdIs uid) (users db') = Some u
                  /\ User.email u = Some (reg_email data) /\ User.isGuest u = false)
    /\ (forall t raw,
          In t (refreshTokens db) -> RefreshToken.userId t = uid ->
          RefreshToken.tokenHash t = AuthService.hashToken raw ->
          ~ In t (refreshTokens db')
          /\ forall env', AuthService.refreshTokens env' raw db' = (db', invalidToken)).
Proof.
  intros Hwf Hfresh Hreg.
  destruct (truthy_cases g) as [Hg|(s & -> & Hs)].
  - rewrite (register_new_eq env data g db Hg) in Hreg.
    destruct (emailStored db _); [discriminate|].
    destruct (userIdStored db (genUserId env)) eqn:Eid; [discriminate|].
    apply generateTokens_Return in Hreg as (_ & Hh & _ & -> & ->).
    exists (genUserId env). split; [|split].
    + apply lookup_addToken_new; [exact Hh | reflexivity].
    + exists (newAccount env data). split; [|split; reflexivity].
      simpl. apply find_snoc_new; [exact Eid|]. apply String.eqb_refl.
    + intros t raw Hin Hu Hth.
      destruct (bulk_delete_invalidates db (addUser db (newAccount env data))
                  (genUserId env) (mintedRecord env (genUserId env)) t raw
                  Hwf eq_refl Hfresh Hin Hu Hth) as [Hgone Hnone].
      split; [exact Hgone|]. intros env'. now apply refreshTokens_not_found.
  - rewrite (register_upgrade_eq env data s db Hs) in Hreg.
    destruct (find (Prisma.userIdIs s) (users db)) as [u|] eqn:Eu; [|discriminate].
    destruct (User.isGuest u); simpl in Hreg; [|discriminate].
    destruct (emailStored db _); [discriminate|].
    apply generateTokens_Return in Hreg as (_ & Hh & _ & -> & ->).
    pose proof (find_user_id _ _ _ Eu) as Hid.
    exists (User.id u). split; [|split].
    + apply lookup_addToken_new; [exact Hh | reflexivity].
    + exists (upgraded data env u). split; [|split; reflexivity].
      simpl. rewrite Hid. apply find_updateUser; [reflexivity | exact Eu].
    + intros t raw Hin Hu Hth.
      destruct (bulk_delete_invalidates db (updateUser db s (upgraded data env))
                  (User.id u) (mintedRecord env (User.id u)) t raw
                  Hwf eq_refl Hfresh Hin Hu Hth) as [Hgone Hnone].
      split; [exact Hgone|]. intros env'. now apply refreshTokens_not_found.
Qed.

(** C5 (as the code has it) - a supplied, non-empty guest id that resolves
    to no account makes register throw BadRequest ("User is not a guest");
    nothing is written: no account and no token row is created. *)
Theorem register_unresolved_guest_rejected env data g db :
  g <> "" ->
  find (Prisma.userIdIs g) (users db) = None ->
  AuthService.register env data (Some g) db
  = (db, Throw (BadRequestException "User is not a guest")).
Proof.
  intros Hg Hnone. rewrite (register_upgrade_eq env data g db Hg), Hnone. reflexivity.
Qed.


(** C7 - Email uniqueness.  When a register call without guest upgrade has
    returned - it added one account, bound to the email - a second
    register call without guest upgrade and with the same email throws
    Conflict ("Email already in use") and leaves both tables exactly as they
    were: no second account is created. *)
Theorem register_same_email_conflict env1 env2 d1 d2 g1 g2 db db1 pair :
  truthy g1 = false -> truthy g2 = false ->
  reg_email d2 = reg_email d1 ->
  AuthService.register env1 d1 g1 db = (db1, Return pair) ->
  users db1 = (users db ++ [newAccount env1 d1])%list
  /\ AuthService.register env2 d2 g2 db1
     = (db1, Throw (ConflictException "Email already in use")).
Proof.
  intros Hg1 Hg2 Hem Hreg.
  rewrite (register_new_eq env1 d1 g1 db Hg1) in Hreg.
  destruct (emailStored db _); [discriminate|].
  destruct (userIdStored db _); [discriminate|].
  apply generateTokens_Return in Hreg as (_ & _ & _ & -> & _).
  split; [reflexivity|].
  rewrite (register_new_eq env2 d2 g2 _ Hg2).
  assert (emailStored
            (addToken (dropTokens (addUser db (newAccount env1 d1))
                                  (Prisma.tokenUserIs (genUserId env1)))
                      (mintedRecord env1 (genUserId env1)))
            (reg_email d2) = true) as ->; [|reflexivity].
  unfold emailStored. simpl. rewrite existsb_snoc, Hem.
  unfold Prisma.userEmailIs at 2. simpl. rewrite String.eqb_refl. apply orb_true_r.
Qed.

End RegisterTheorems.

Lemma register_invalidates_sessions_witness :
  wf Demo.dbGuest /\
  hashStored Demo.dbGuest (@AuthService.hashToken Demo.runtime (randomHex Demo.env2))
  = false /\
  @AuthService.register Demo.runtime Demo.env2 Demo.alice (Some "u1") Demo.dbGuest
  = (Demo.dbUpgraded, Return (mkTokenPair "s3cret.902000.r.u1" "bb22")) /\
  ~ In Demo.guestToken (refreshTokens Demo.dbUpgraded) /\
  @AuthService.refreshTokens Demo.runtime Demo.env3 "aa11" Demo.dbUpgraded
  = (Demo.dbUpgraded, invalidToken).
Proof.
  assert (Hf : hashStored Demo.dbGuest
                 (@AuthService.hashToken Demo.runtime (randomHex Demo.env2)) = false)
    by reflexivity.
  assert (Hr : @AuthService.register Demo.runtime Demo.env2 Demo.alice (Some "u1")
                 Demo.dbGuest
               = (Demo.dbUpgraded, Return (mkTokenPair "s3cret.902000.r.u1" "bb22")))
    by reflexivity.
  split; [exact wf_dbGuest|]. split; [exact Hf|]. split; [exact Hr|].
  destruct (@register_invalidates_sessions Demo.runtime Demo.env2 Demo.alice (Some "u1")
              Demo.dbGuest Demo.dbUpgraded _ wf_dbGuest Hf Hr)
    as (uid & Hnew & _ & Hold).
  assert (Huid : uid = "u1") by (vm_compute in Hnew; congruence).
  destruct (Hold Demo.guestToken "aa11" (or_introl eq_refl)
              (eq_sym Huid) eq_refl) as [Hgone Hfail].
  split; [exact Hgone | exact (Hfail Demo.env3)].
Defined.

(** C5, the claim as stated fails: on the empty store a register call with
    the guest id "ghost", which resolves to no account, throws BadRequest
    and creates nothing, while the same call without guest id creates the
    account. *)
Lemma register_unresolved_guest_counterexample :
  find (Prisma.userIdIs "ghost") (users emptyDb) = None /\
  @AuthService.register Demo.runtime Demo.env1 Demo.alice (Some "ghost") emptyDb
  = (emptyDb, Throw (BadRequestException "User is not a guest")) /\
  @AuthService.register Demo.runtime Demo.env1 Demo.alice None emptyDb
  = (Demo.dbRegistered, Return (mkTokenPair "s3cret.901000.r.u1" "aa11")).
Proof. repeat split. Qed.

Lemma register_unresolved_guest_rejected_witness :
  "ghost" <> "" /\
  find (Prisma.userIdIs "ghost") (users Demo.dbGuest) = None /\
  @AuthService.register Demo.runtime Demo.env2 Demo.alice (Some "ghost") Demo.dbGuest
  = (Demo.dbGuest, Throw (BadRequestException "User is not a guest")).
Proof.
  assert (Hg : "ghost" <> "") by discriminate.
  assert (Hn : find (Prisma.userIdIs "ghost") (users Demo.dbGuest) = None)
    by reflexivity.
  split; [exact Hg|]. split; [exact Hn|].
  exact (@register_unresolved_guest_rejected Demo.runtime Demo.env2 Demo.alice "ghost"
           Demo.dbGuest Hg Hn).
Defined.



Lemma register_same_email_conflict_witness :
  @AuthService.register Demo.runtime Demo.env1 Demo.alice None emptyDb
  = (Demo.dbRegistered, Return (mkTokenPair "s3cret.901000.r.u1" "aa11")) /\
  @AuthService.register Demo.runtime Demo.env2 Demo.alice None Demo.dbRegistered
  = (Demo.dbRegistered, Throw (ConflictException "Email already in use")).
Proof.
  split; [reflexivity|].
  exact (proj2 (@register_same_email_conflict Demo.runtime Demo.env1 Demo.env2
                  Demo.alice Demo.alice None None emptyDb Demo.dbRegistered _
                  eq_refl eq_refl eq_refl eq_refl)).
Defined.

(* ------------------------------------------------------------------------- *)
(** ** Access-token verification and the identity it yields *)

Section CurrentIdentity.
Context {R : Runtime}.

Lemma validate_eq payload db :
  JwtStrategy.validate payload db =
  match find (Prisma.userIdIs (JwtPayload.sub payload)) (users db) with
  | None => (db, Throw (UnauthorizedException "User not found"))
  | Some u => (db, Return (RequestUser.mk (User.id u) (User.email u) (User.isGuest u)))
  end.
Proof.
  unfold JwtStrategy.validate, bind, UsersService.findById, Prisma.user_findUnique_id.
  destruct (find _ (users db)); reflexivity.
Qed.


End CurrentIdentity.



(* ------------------------------------------------------------------------- *)
(** ** Account shape *)

Section Shape.
Context {R : Runtime}.

Lemma shapeInv_user_create newId em pw dn g :
  shapeOk (User.mk newId em pw dn g) = true ->
  Preserves shapeInv (Prisma.user_create newId em pw dn g).
Proof.
  intros Hs db H. unfold Prisma.user_create.
  destruct (existsb _ (users db)); [exact H|].
  destruct (match em with Some e => _ | None => _ end); [exact H|].
  simpl. now apply shapeInv_snoc.
Qed.

Lemma shapeInv_user_update i em pw dn :
  Preserves shapeInv (Prisma.user_update i em pw dn false).
Proof.
  intros db H. unfold Prisma.user_update.
  destruct (find _ (users db)) as [u|]; [|exact H].
  destruct (existsb _ (users db)); [exact H|]. simpl.
  unfold shapeInv in *. simpl. rewrite forallb_forall in *.
  intros x Hx. apply in_map_iff in Hx as (v & <- & Hv).
  destruct (Prisma.userIdIs i v); [apply shapeOk_applyUpdate | now apply H].
Qed.

Lemma shapeInv_runAll reqs : forall db, shapeInv db -> shapeInv (runAll reqs db).
Proof.
  induction reqs as [|[env op] reqs IH]; intros db H; simpl; [exact H|].
  apply IH. now apply shapeInv_run.
Qed.

(** C8 - Account shape invariant.  Every account returned by create-guest,
    create-registered and upgrade-guest has the shape "guest: no email and
    no credential hash; registered: both present".  If all accounts of the
    store have that shape, they still have it after any of these three
    operations and after any operation of the core (guest session,
    register, login, refresh, logout), whether it returns or throws; hence
    in every store reached from the empty one. *)
Theorem account_shape_invariant env :
  (forall db db' u,
      UsersService.createGuest env db = (db', Return u) -> shapeOk u = true)
  /\ (forall em pw dn db db' u,
      UsersService.createRegistered env em pw dn db = (db', Return u) -> shapeOk u = true)
  /\ (forall i em pw dn db db' u,
      UsersService.upgradeGuest i em pw dn db = (db', Return u) -> shapeOk u = true)
  /\ (forall db, shapeInv db ->
      shapeInv (fst (UsersService.createGuest env db))
      /\ (forall em pw dn, shapeInv (fst (UsersService.createRegistered env em pw dn db)))
      /\ (forall i em pw dn, shapeInv (fst (UsersService.upgradeGuest i em pw dn db)))
      /\ (forall op, shapeInv (fst (run env op db))))
  /\ (forall reqs, shapeInv (runAll reqs emptyDb)).
Proof.
  split; [|split; [|split; [|split]]].
  - intros db db' u. unfold UsersService.createGuest, Prisma.user_create.
    destruct (existsb _ (users db)); simpl; [discriminate|]. now intros [= _ <-].
  - intros em pw dn db db' u. rewrite createRegistered_eq.
    destruct (emailStored db em); [discriminate|].
    destruct (userIdStored db _); [discriminate|]. now intros [= _ <-].
  - intros i em pw dn db db' u. rewrite upgradeGuest_eq.
    destruct (find _ (users db)) as [v|]; [|discriminate].
    destruct (User.isGuest v); simpl; [|discriminate].
    destruct (emailStored db em); [discriminate|]. now intros [= _ <-].
  - intros db H. split; [|split; [|split]].
    + now apply (shapeInv_user_create (genUserId env) None None None true).
    + intros em pw dn. revert db H.
      apply (Preserves_UsersService_createRegistered shapeInv env).
      intros em' pw' dn'. now apply shapeInv_user_create.
    + intros i em pw dn. revert db H.
      apply (Preserves_UsersService_upgradeGuest shapeInv).
      intros i' em' pw' dn'. apply shapeInv_user_update.
    + intros op. now apply shapeInv_run.
  - intros reqs. now apply shapeInv_runAll.
Qed.

End Shape.

Lemma account_shape_invariant_witness :
  shapeInv Demo.dbGuest /\
  shapeInv (fst (@run Demo.runtime Demo.env2 (OpRegister Demo.alice (Some "u1"))
                   Demo.dbGuest)) /\
  users (fst (@run Demo.runtime Demo.env2 (OpRegister Demo.alice (Some "u1"))
                Demo.dbGuest))
  = [User.mk "u1" (Some "a@b.com") (Some "$2b$10$salt2$password123") None false].
Proof.
  assert (H : shapeInv Demo.dbGuest) by reflexivity.
  split; [exact H|]. split; [|reflexivity].
  destruct (@account_shape_invariant Demo.runtime Demo.env2) as (_ & _ & _ & Hp & _).
  destruct (Hp Demo.dbGuest H) as (_ & _ & _ & Hrun).
  exact (Hrun (OpRegister Demo.alice (Some "u1"))).
Defined.

(* ------------------------------------------------------------------------- *)
(** ** Minting *)

Section Minting.
Context {R : Runtime}.




End Minting.


(* ------------------------------------------------------------------------- *)
(** ** The register endpoint and its optional bearer token *)

Section RegisterBoundary.
Context {R : Runtime}.



End RegisterBoundary.


(* ------------------------------------------------------------------------- *)
(** ** Logout *)

Section Logout.
Context {R : Runtime}.

Lemma truthy_Some s : s <> "" -> truthy (Some s) = true.
Proof. intros H. simpl. apply negb_true_iff. now apply String.eqb_neq. Qed.

Lemma logout_eq raw db :
  raw <> "" ->
  AuthService.logout (Some raw) db
  = (dropTokens db (Prisma.tokenHashIs (AuthService.hashToken raw)), Return tt).
Proof.
  intros H. unfold AuthService.logout. rewrite (truthy_Some raw H). reflexivity.
Qed.

Lemma logout_noop r db : truthy r = false -> AuthService.logout r db = (db, Return tt).
Proof. intros H. unfold AuthService.logout. now rewrite H. Qed.

Lemma filter_twice {A} (p : A -> bool) l : filter p (filter p l) = filter p l.
Proof.
  induction l as [|a l IH]; simpl; [reflexivity|].
  destruct (p a) eqn:E; simpl; [rewrite E|]; now rewrite ?IH.
Qed.

(** X1 - Logout is idempotent and never throws.  Whatever the cookie holds,
    logout returns; a second logout with the same value returns too and
    changes nothing more; accounts are never touched; and with a missing or
    empty token the store is left exactly as it was. *)
Theorem logout_idempotent r db :
  exists db',
    AuthService.logout r db = (db', Return tt)
    /\ AuthService.logout r db' = (db', Return tt)
    /\ users db' = users db
    /\ (truthy r = false -> db' = db).
Proof.
  destruct (truthy_cases r) as [Hr|(s & -> & Hs)].
  - exists db. rewrite (logout_noop r db Hr). auto.
  - exists (dropTokens db (Prisma.tokenHashIs (AuthService.hashToken s))).
    rewrite !(logout_eq s _ Hs). repeat split.
    + unfold dropTokens. simpl. now rewrite filter_twice.
    + rewrite (truthy_Some s Hs). discriminate.
Qed.

(** X2 - Logout revokes exactly the presented token.  After logout with a
    non-empty raw value no row has its fingerprint, so a refresh with that
    value throws Unauthorized ("Invalid refresh token"), expired or not;
    every row with another fingerprint stays, and so does every account. *)
Theorem logout_revokes raw db :
  raw <> "" ->
  exists db',
    AuthService.logout (Some raw) db = (db', Return tt)
    /\ lookup db' raw = None
    /\ (forall env, AuthService.refreshTokens env raw db' = (db', invalidToken))
    /\ (forall t, In t (refreshTokens db) ->
                  RefreshToken.tokenHash t <> AuthService.hashToken raw ->
                  In t (refreshTokens db'))
    /\ (forall t, In t (refreshTokens db') -> In t (refreshTokens db))
    /\ users db' = users db.
Proof.
  intros Hraw. eexists. split; [apply (logout_eq raw db Hraw)|].
  assert (Hnone : lookup (dropTokens db (Prisma.tokenHashIs (AuthService.hashToken raw)))
                         raw = None).
  { apply hashStored_None. unfold hashStored. simpl. apply existsb_filter_out. auto. }
  split; [exact Hnone|]. split; [|split; [|split]].
  - intros env. now apply refreshTokens_not_found.
  - intros t Hin Hne. simpl. apply filter_In. split; [exact Hin|].
    apply negb_true_iff. now apply String.eqb_neq.
  - intros t Hin. simpl in Hin. now apply filter_In in Hin.
  - reflexivity.
Qed.

End Logout.

Lemma logout_revokes_witness :
  "aa11" <> "" /\
  @lookup Demo.runtime Demo.dbGuest "aa11" = Some Demo.guestToken /\
  exists db',
    @AuthService.logout Demo.runtime (Some "aa11") Demo.dbGuest = (db', Return tt)
    /\ @AuthService.refreshTokens Demo.runtime Demo.env2 "aa11" db' = (db', invalidToken).
Proof.
  assert (H : "aa11" <> "") by discriminate.
  split; [exact H|]. split; [reflexivity|].
  destruct (@logout_revokes Demo.runtime "aa11" Demo.dbGuest H)
    as (db' & Hl & _ & Hr & _).
  exists db'. split; [exact Hl | exact (Hr Demo.env2)].
Defined.

(* ------------------------------------------------------------------------- *)
(** ** Credentials and login *)

Section Login.
Context {R : Runtime}.


(** X3 - Credential check.  [validateUser] never throws and never writes.
    It yields an account exactly when the account found under the email has
    a non-empty credential hash that bcrypt accepts for the password; an
    unknown email, an account without credential hash (a guest) and a wrong
    password all yield null. *)
Theorem validateUser_spec email password db :
  exists r,
    AuthService.validateUser email password db = (db, Return r)
    /\ (forall u,
          r = Some u <->
          find (Prisma.userEmailIs email) (users db) = Some u
          /\ exists h, User.passwordHash u = Some h /\ h <> ""
                       /\ bcrypt_compare password h = true).
Proof.
  unfold AuthService.validateUser, bind, UsersService.findByEmail,
    Prisma.user_findUnique_email.
  destruct (find (Prisma.userEmailIs email) (users db)) as [u|] eqn:Eu.
  - destruct (User.passwordHash u) as [h|] eqn:Eh; simpl.
    + destruct (String.eqb_spec h ""); simpl.
      * eexists. split; [reflexivity|]. intros v. split; [discriminate|].
        intros ([= <-] & h' & Hh & Hne & _). congruence.
      * destruct (bcrypt_compare password h) eqn:Ec.
        -- eexists. split; [reflexivity|]. intros v. split.
           ++ intros [= <-]. split; [reflexivity|]. exists h. auto.
           ++ now intros ([= <-] & _).
        -- eexists. split; [reflexivity|]. intros v. split; [discriminate|].
           intros ([= <-] & h' & Hh & _ & Hc). congruence.
    + eexists. split; [reflexivity|]. intros v. split; [discriminate|].
      intros ([= <-] & h' & Hh & _). congruence.
  - eexists. split; [reflexivity|]. intros v. split; [discriminate|].
    intros (H & _). discriminate.
Qed.

Lemma login_eq env userId db :
  AuthService.login env userId db =
  match find (Prisma.userIdIs userId) (users db) with
  | None => (db, Throw (UnauthorizedException "Unauthorized"))
  | Some u => AuthService.generateTokens env (User.id u) (User.isGuest u) db
  end.
Proof.
  unfold AuthService.login, bind, UsersService.findById, Prisma.user_findUnique_id.
  destruct (find _ (users db)); reflexivity.
Qed.



(** Login for an id that resolves to no account throws Unauthorized and
    writes nothing. *)
Lemma login_unknown_account env userId db :
  find (Prisma.userIdIs userId) (users db) = None ->
  AuthService.login env userId db = (db, Throw (UnauthorizedException "Unauthorized")).
Proof. intros H. now rewrite login_eq, H. Qed.


End Login.


Lemma login_unknown_account_witness :
  find (Prisma.userIdIs "nobody") (users Demo.dbRegistered) = None /\
  @AuthService.login Demo.runtime Demo.env2 "nobody" Demo.dbRegistered
  = (Demo.dbRegistered, Throw (UnauthorizedException "Unauthorized")).
Proof.
  split; [reflexivity|].
  exact (@login_unknown_account Demo.runtime Demo.env2 "nobody" Demo.dbRegistered
           eq_refl).
Defined.


(* ------------------------------------------------------------------------- *)
(** ** Guest sessions, upgrade, rotation at the endpoints *)

Section Sessions.
Context {R : Runtime}.
Implicit Types (env : Env) (db : Db) (data : RegisterData).

Lemma createGuest_eq env db :
  AuthService.createGuest env db =
  if userIdStored db (genUserId env)
  then (db, Throw (PrismaClientKnownRequestError Prisma.P2002))
  else AuthService.generateTokens env (genUserId env) true
         (addUser db (User.mk (genUserId env) None None None true)).
Proof.
  unfold AuthService.createGuest, bind, UsersService.createGuest, Prisma.user_create,
    userIdStored.
  destruct (existsb _ (users db)); reflexivity.
Qed.





(** A missing or empty [refresh_token] cookie makes POST /auth/refresh
    throw Unauthorized ("No refresh token") before the store is consulted. *)
Lemma refresh_endpoint_without_cookie env req db :
  truthy (cookie_refresh_token req) = false ->
  AuthController.refresh env req db
  = (db, Throw (UnauthorizedException "No refresh token")).
Proof. intros H. unfold AuthController.refresh. now rewrite H. Qed.


Lemma updateUser_ids db i f :
  (forall v, User.id (f v) = User.id v) ->
  map User.id (users (updateUser db i f)) = map User.id (users db).
Proof. intros Hf. simpl. now apply map_id_update. Qed.


(** X12 - A refused upgrade writes nothing.  Registering with the id of an
    account that is not a guest throws BadRequest ("User is not a guest");
    registering with the id of a guest and an email already bound to some
    account throws Conflict ("Email already in use").  In both cases the
    store is unchanged: the guest stays a guest and its sessions stay
    valid. *)
Theorem refused_upgrade_writes_nothing env data g db u :
  g <> "" -> find (Prisma.userIdIs g) (users db) = Some u ->
  (User.isGuest u = false ->
   AuthService.register env data (Some g) db
   = (db, Throw (BadRequestException "User is not a guest")))
  /\ (User.isGuest u = true -> emailStored db (reg_email data) = true ->
      AuthService.register env data (Some g) db
      = (db, Throw (ConflictException "Email already in use"))).
Proof.
  intros Hg Hu. rewrite (register_upgrade_eq env data g db Hg), Hu. split.
  - now intros ->.
  - now intros -> ->.
Qed.

End Sessions.



Lemma refresh_endpoint_without_cookie_witness :
  truthy (cookie_refresh_token (mkRequest None (Some ""))) = false /\
  @AuthController.refresh Demo.runtime Demo.env2 (mkRequest None (Some "")) Demo.dbGuest
  = (Demo.dbGuest, Throw (UnauthorizedException "No refresh token")) /\
  @AuthController.refresh Demo.runtime Demo.env2 (mkRequest None None) Demo.dbGuest
  = (Demo.dbGuest, Throw (UnauthorizedException "No refresh token")).
Proof.
  split; [reflexivity|]. split.
  - exact (@refresh_endpoint_without_cookie Demo.runtime Demo.env2
             (mkRequest None (Some "")) Demo.dbGuest eq_refl).
  - exact (@refresh_endpoint_without_cookie Demo.runtime Demo.env2
             (mkRequest None None) Demo.dbGuest eq_refl).
Defined.



Lemma refused_upgrade_writes_nothing_witness :
  "u1" <> "" /\
  find (Prisma.userIdIs "u1") (users Demo.dbRegistered)
  = Some (User.mk "u1" (Some "a@b.com") (Some "$2b$10$salt1$password123") None false) /\
  @AuthService.register Demo.runtime Demo.env2 Demo.weak (Some "u1") Demo.dbRegistered
  = (Demo.dbRegistered, Throw (BadRequestException "User is not a guest")).
Proof.
  assert (Hn : "u1" <> "") by discriminate.
  assert (Hu : find (Prisma.userIdIs "u1") (users Demo.dbRegistered)
               = Some (User.mk "u1" (Some "a@b.com") (Some "$2b$10$salt1$password123")
                               None false)) by reflexivity.
  split; [exact Hn|]. split; [exact Hu|].
  destruct (@refused_upgrade_writes_nothing Demo.runtime Demo.env2 Demo.weak "u1"
              Demo.dbRegistered _ Hn Hu) as [Hbad _].
  exact (Hbad eq_refl).
Defined.

(* ------------------------------------------------------------------------- *)
(** ** Bearer tokens at the endpoints *)

Section Bearer.
Context {R : Runtime}.





Lemma logout_returns r db :
  AuthService.logout r db = (fst (AuthService.logout r db), Return tt).
Proof.
  destruct (truthy_cases r) as [Hr|(s & -> & Hs)].
  - now rewrite (logout_noop r db Hr).
  - now rewrite (logout_eq s db Hs).
Qed.

Lemma authenticate_fst env auth db : fst (JwtStrategy.authenticate env auth db) = db.
Proof.
  unfold JwtStrategy.authenticate.
  destruct (fromAuthHeaderAsBearerToken auth) as [token|]; [|reflexivity].
  destruct (jwt_verify token _ _) as [payload|]; [|reflexivity].
  rewrite validate_eq. destruct (find _ (users db)); reflexivity.
Qed.

Lemma authenticate_outcome env auth db :
  (exists m, snd (JwtStrategy.authenticate env auth db) = Throw (UnauthorizedException m))
  \/ (exists u, In u (users db)
                /\ snd (JwtStrategy.authenticate env auth db)
                   = Return (RequestUser.mk (User.id u) (User.email u) (User.isGuest u))).
Proof.
  unfold JwtStrategy.authenticate.
  destruct (fromAuthHeaderAsBearerToken auth) as [token|];
    [|left; eexists; reflexivity].
  destruct (jwt_verify token _ _) as [payload|]; [|left; eexists; reflexivity].
  rewrite validate_eq.
  destruct (find _ (users db)) as [u|] eqn:E; [|left; eexists; reflexivity].
  right. exists u. split; [|reflexivity]. now apply find_some in E.
Qed.

(** X14 - Logout needs a valid access token.  When the bearer token of a
    POST /auth/logout request is refused, the endpoint throws that
    Unauthorized and the store is unchanged: the refresh token in the
    cookie is not revoked.  When it is accepted, the endpoint answers
    "Logged out" and the store is the one the core logout leaves. *)
Theorem logout_endpoint_guarded env req db :
  (forall e,
      snd (JwtStrategy.authenticate env (authorization req) db) = Throw e ->
      AuthController.logout env req db = (db, Throw e)
      /\ exists m, e = UnauthorizedException m)
  /\ (forall user,
      snd (JwtStrategy.authenticate env (authorization req) db) = Return user ->
      AuthController.logout env req db
      = (fst (AuthService.logout (cookie_refresh_token req) db), Return "Logged out")).
Proof.
  pose proof (authenticate_fst env (authorization req) db) as Hfst.
  unfold AuthController.logout. unfold bind at 1.
  destruct (JwtStrategy.authenticate env (authorization req) db) as [d o] eqn:Ea.
  simpl in Hfst. subst d. split.
  - intros e He. simpl in He. subst o. split; [reflexivity|].
    destruct (authenticate_outcome env (authorization req) db) as [(m & Hm)|(u & _ & Hu)];
      rewrite Ea in *; simpl in *; [injection Hm as ->; eauto | discriminate].
  - intros user Hu. simpl in Hu. subst o. unfold bind. rewrite Ea.
    rewrite (logout_returns (cookie_refresh_token req) db). reflexivity.
Qed.

(** X15 - GET /users/me behind the guard.  The route never writes, fails
    only with Unauthorized, and never answers null: when it returns, the
    body holds id, email, display name and guest flag of a stored account
    (the credential hash is not part of the answer). *)
Theorem getMe_route env req db :
  exists o,
    UsersController.getMeRoute env req db = (db, o)
    /\ o <> Return None
    /\ (forall e, o = Throw e -> exists m, e = UnauthorizedException m)
    /\ (forall s, o = Return (Some s) ->
        exists u, In u (users db)
                  /\ s = SafeUser.mk (User.id u) (User.email u) (User.displayName u)
                                     (User.isGuest u)).
Proof.
  pose proof (authenticate_fst env (authorization req) db) as Hfst.
  unfold UsersController.getMeRoute, bind.
  destruct (authenticate_outcome env (authorization req) db) as [(m & Hm)|(u & Hin & Hu)];
    destruct (JwtStrategy.authenticate env (authorization req) db) as [d o] eqn:Ea;
    simpl in *; subst d o.
  - eexists. split; [reflexivity|]. split; [discriminate|]. split.
    + intros e [= <-]. eauto.
    + discriminate.
  - unfold UsersController.getMe, bind, UsersService.findById,
      Prisma.user_findUnique_id. simpl.
    destruct (find (Prisma.userIdIs (User.id u)) (users db)) as [v|] eqn:Ev.
    + eexists. split; [reflexivity|]. split; [discriminate|]. split; [discriminate|].
      intros s [= <-]. exists v. split; [now apply find_some in Ev | reflexivity].
    + exfalso. apply find_none_existsb in Ev.
      pose proof (existsb_false_In _ _ u Ev Hin) as F.
      unfold Prisma.userIdIs in F. now rewrite String.eqb_refl in F.
Qed.

End Bearer.


(* ------------------------------------------------------------------------- *)
(** ** What no request does *)

Section Never.
Context {R : Runtime}.
Implicit Types (env : Env) (db : Db) (op : Op).

Lemma generateTokens_Throw env uid g db db' e :
  AuthService.generateTokens env uid g db = (db', Throw e) ->
  db' = db /\ exists c, e = PrismaClientKnownRequestError c.
Proof.
  rewrite generateTokens_eq.
  destruct (tokenIdStored db _); [intros [= <- <-]; eauto|].
  destruct (hashStored db _); [intros [= <- <-]; eauto|].
  destruct (userIdStored db _); simpl; [discriminate|intros [= <- <-]; eauto].
Qed.

Lemma run_eq env op db :
  run env op db =
  match op with
  | OpCreateGuest =>
      let r := AuthService.createGuest env db in
      (fst r, match snd r with Return p => Return (Some p) | Throw e => Throw e end)
  | OpRegister data g =>
      let r := AuthService.register env data g db in
      (fst r, match snd r with Return p => Return (Some p) | Throw e => Throw e end)
  | OpLogin u =>
      let r := AuthService.login env u db in
      (fst r, match snd r with Return p => Return (Some p) | Throw e => Throw e end)
  | OpRefresh raw =>
      let r := AuthService.refreshTokens env raw db in
      (fst r, match snd r with Return p => Return (Some p) | Throw e => Throw e end)
  | OpLogout raw => (fst (AuthService.logout raw db), Return None)
  end.
Proof.
  destruct op; simpl; unfold bind.
  - destruct (AuthService.createGuest env db) as [d [p|e]]; reflexivity.
  - destruct (AuthService.register env data guestUserId db) as [d [p|e]]; reflexivity.
  - destruct (AuthService.login env userId db) as [d [p|e]]; reflexivity.
  - destruct (AuthService.refreshTokens env refreshToken0 db) as [d [p|e]]; reflexivity.
  - rewrite (logout_returns refreshToken0 db). reflexivity.
Qed.



(** X17 - A refusal writes nothing.  When an operation of the core throws
    Conflict or BadRequest, the store is exactly as before.  When it throws
    Unauthorized, the store is as before too, with one exception: a refresh
    that found an expired row has deleted that row, and only it. *)
Theorem refusal_writes_nothing env op db db' e :
  run env op db = (db', Throw e) ->
  match e with
  | ConflictException _ | BadRequestException _ => db' = db
  | UnauthorizedException _ =>
      db' = db
      \/ exists raw t,
           op = OpRefresh raw /\ lookup db raw = Some t /\ expiredAt t env = true
           /\ e = UnauthorizedException "Refresh token expired"
           /\ db' = dropTokens db (Prisma.tokenIdIs (RefreshToken.id t))
  | _ => True
  end.
Proof.
  assert (Hgen : forall uid g d d' x,
             AuthService.generateTokens env uid g d = (d', Throw x) ->
             match x with
             | ConflictException _ | BadRequestException _ => d' = db
             | UnauthorizedException _ => d' = db \/
                 exists raw t,
                   op = OpRefresh raw /\ lookup db raw = Some t /\ expiredAt t env = true
                   /\ x = UnauthorizedException "Refresh token expired"
                   /\ d' = dropTokens db (Prisma.tokenIdIs (RefreshToken.id t))
             | _ => True
             end).
  { intros uid g d d' x H. apply generateTokens_Throw in H as (_ & c & ->). exact I. }
  rewrite run_eq. destruct op as [|data g|uid|raw|raw]; cbv zeta.
  - rewrite createGuest_eq. destruct (userIdStored db _).
    + intros [= <- <-]. exact I.
    + destruct (AuthService.generateTokens _ _ _ _) as [d [p|x]] eqn:E; simpl;
        [discriminate|]. intros [= <- <-]. eapply Hgen; eauto.
  - destruct (truthy_cases g) as [Hg|(s & -> & Hs)].
    + rewrite (register_new_eq env data g db Hg).
      destruct (emailStored db _); [now intros [= <- <-]|].
      destruct (userIdStored db _); [intros [= <- <-]; exact I|].
      destruct (AuthService.generateTokens _ _ _ _) as [d [p|x]] eqn:E; simpl;
        [discriminate|]. intros [= <- <-]. eapply Hgen; eauto.
    + rewrite (register_upgrade_eq env data s db Hs).
      destruct (find _ (users db)) as [u|]; [|now intros [= <- <-]].
      destruct (User.isGuest u); cbn [negb]; [|now intros [= <- <-]].
      destruct (emailStored db _); [now intros [= <- <-]|].
      destruct (AuthService.generateTokens _ _ _ _) as [d [p|x]] eqn:E; simpl;
        [discriminate|]. intros [= <- <-]. eapply Hgen; eauto.
  - rewrite login_eq. destruct (find _ (users db)) as [u|].
    + destruct (AuthService.generateTokens _ _ _ _) as [d [p|x]] eqn:E; simpl;
        [discriminate|]. intros [= <- <-]. eapply Hgen; eauto.
    + intros [= <- <-]. now left.
  - destruct (lookup db raw) as [t|] eqn:El.
    + rewrite (refreshTokens_found env raw db t El). cbv zeta.
      destruct (expiredAt t env) eqn:Ee.
      * intros [= <- <-]. right. exists raw, t. auto.
      * destruct (find _ (users db)) as [u|].
        -- destruct (AuthService.generateTokens _ _ _ _) as [d [p|x]] eqn:E; simpl;
             [discriminate|]. intros [= <- <-]. eapply Hgen; eauto.
        -- intros [= <- <-]. exact I.
    + rewrite (refreshTokens_not_found env raw db El). intros [= <- <-]. now left.
  - discriminate.
Qed.

End Never.


Lemma refusal_writes_nothing_witness :
  @run Demo.runtime Demo.env2 (OpRegister Demo.alice None) Demo.dbRegistered
  = (Demo.dbRegistered, Throw (ConflictException "Email already in use")) /\
  Demo.dbRegistered = Demo.dbRegistered.
Proof.
  assert (H : @run Demo.runtime Demo.env2 (OpRegister Demo.alice None) Demo.dbRegistered
              = (Demo.dbRegistered, Throw (ConflictException "Email already in use")))
    by reflexivity.
  split; [exact H|].
  exact (@refusal_writes_nothing Demo.runtime Demo.env2 (OpRegister Demo.alice None)
           Demo.dbRegistered Demo.dbRegistered _ H).
Defined.

(* ------------------------------------------------------------------------- *)
(** ** Accounts over time *)

Section Accounts.
Context {R : Runtime}.
Implicit Types (env : Env) (db : Db) (op : Op).








(** The accounts after one operation: untouched, one appended, or one guest
    row rewritten in place. *)
Lemma run_users env op db :
  users (fst (run env op db)) = users db
  \/ (exists u, User.id u = genUserId env
                /\ users (fst (run env op db)) = (users db ++ [u])%list)
  \/ (exists g f u,
        find (Prisma.userIdIs g) (users db) = Some u /\ User.isGuest u = true
        /\ (forall v, User.id (f v) = User.id v)
        /\ users (fst (run env op db))
           = map (fun v => if Prisma.userIdIs g v then f v else v) (users db)).
Proof.
  rewrite run_eq. destruct op as [|data g|uid|raw|raw]; cbv zeta; cbn [fst].
  - rewrite createGuest_eq. destruct (userIdStored db _); [now left|].
    rewrite generateTokens_users. right. left. eexists. split; [|reflexivity].
    reflexivity.
  - destruct (truthy_cases g) as [Hg|(s & -> & Hs)].
    + rewrite (register_new_eq env data g db Hg).
      destruct (emailStored db _); [now left|].
      destruct (userIdStored db _); [now left|].
      rewrite generateTokens_users. right. left. exists (newAccount env data).
      split; reflexivity.
    + rewrite (register_upgrade_eq env data s db Hs).
      destruct (find _ (users db)) as [u|] eqn:Eu; [|now left].
      destruct (User.isGuest u) eqn:Eg; cbn [negb]; [|now left].
      destruct (emailStored db _); [now left|].
      rewrite generateTokens_users. right. right.
      exists s, (upgraded data env), u. repeat split; assumption || reflexivity.
  - rewrite login_eq. destruct (find _ (users db)); [|now left].
    rewrite generateTokens_users. now left.
  - destruct (lookup db raw) as [t|] eqn:El.
    + rewrite (refreshTokens_found env raw db t El). cbv zeta.
      destruct (expiredAt t env); [now left|].
      destruct (find _ (users db)); [|now left].
      rewrite generateTokens_users. now left.
    + rewrite (refreshTokens_not_found env raw db El). now left.
  - destruct (truthy_cases raw) as [Hr|(s & -> & Hs)].
    + rewrite (logout_noop raw db Hr). now left.
    + rewrite (logout_eq s db Hs). now left.
Qed.

(** X19 - Accounts are never deleted.  After any sequence of operations
    the account ids of the store begin with the ids it had before, in the
    same order: the core only appends accounts or rewrites one in place. *)
Theorem accounts_never_deleted reqs db :
  exists more,
    map User.id (users (runAll reqs db)) = (map User.id (users db) ++ more)%list.
Proof.
  revert db. induction reqs as [|[env op] reqs IH]; intros db; simpl.
  - exists []. now rewrite app_nil_r.
  - destruct (IH (fst (run env op db))) as (more & Hm). rewrite Hm.
    destruct (run_users env op db) as [->|[(u & _ & ->)|(g & f & u & _ & _ & Hf & ->)]].
    + eauto.
    + rewrite map_app, <- app_assoc. eauto.
    + rewrite map_id_update by exact Hf. eauto.
Qed.

(** X20 - A registered account is never rewritten.  On a store with unique
    account ids, the row of an account that is not a guest - id, email,
    credential hash, display name - is still in the store, unchanged, after
    any operation of the core. *)
Theorem registered_account_untouched env op db u :
  wf db -> In u (users db) -> User.isGuest u = false ->
  In u (users (fst (run env op db))).
Proof.
  intros Hwf Hin Hreg.
  destruct (run_users env op db) as [->|[(x & _ & ->)|(g & f & v & Hv & Hg & _ & ->)]].
  - exact Hin.
  - apply in_or_app. now left.
  - apply in_map_iff. exists u. split; [|exact Hin].
    destruct (Prisma.userIdIs g u) eqn:E; [|reflexivity].
    exfalso. apply String.eqb_eq in E.
    assert (u = v).
    { apply (NoDup_key_inj User.id (users db));
        [apply Hwf | exact Hin | now apply find_some in Hv
        | now rewrite (find_user_id _ _ _ Hv)]. }
    congruence.
Qed.

(** X21 - A refresh token nobody minted is never accepted.  If no row has
    the fingerprint of a raw value, then after any sequence of operations
    in which the generator never draws a value with that fingerprint, a
    refresh with the raw value throws Unauthorized ("Invalid refresh token")
    and writes nothing. *)
Theorem unminted_token_rejected reqs raw env db :
  lookup db raw = None ->
  Forall (fun r => AuthService.hashToken (randomHex (fst r))
                   <> AuthService.hashToken raw) reqs ->
  AuthService.refreshTokens env raw (runAll reqs db) = (runAll reqs db, invalidToken).
Proof.
  intros Hn HF. apply refreshTokens_not_found. apply hashStored_None.
  apply absent_runAll; [exact HF|]. now apply hashStored_None.
Qed.

End Accounts.


Lemma registered_account_untouched_witness :
  wf Demo.dbRegistered /\
  In (User.mk "u1" (Some "a@b.com") (Some "$2b$10$salt1$password123") None false)
     (users (fst (@run Demo.runtime Demo.env2 (OpRegister Demo.weak (Some "u1"))
                    Demo.dbRegistered))).
Proof.
  split; [exact wf_dbRegistered|].
  exact (@registered_account_untouched Demo.runtime Demo.env2
           (OpRegister Demo.weak (Some "u1")) Demo.dbRegistered _
           wf_dbRegistered (or_introl eq_refl) eq_refl).
Defined.

Lemma unminted_token_rejected_witness :
  @lookup Demo.runtime Demo.dbGuest "dead" = None /\
  @AuthService.refreshTokens Demo.runtime Demo.env3 "dead"
     (@runAll Demo.runtime [(Demo.env2, OpRefresh "aa11")] Demo.dbGuest)
  = (@runAll Demo.runtime [(Demo.env2, OpRefresh "aa11")] Demo.dbGuest, invalidToken).
Proof.
  split; [reflexivity|].
  apply (@unminted_token_rejected Demo.runtime [(Demo.env2, OpRefresh "aa11")] "dead"
           Demo.env3 Demo.dbGuest eq_refl).
  constructor; [discriminate | constructor].
Defined.

(* ------------------------------------------------------------------------- *)
(** ** The API client *)

Section ClientFacts.
Context {B : Browser}.
Import ApiClient.
Implicit Types (c : Client) (o : ApiClientOptions).

Lemma send_sent req c : sent (fst (send req c)) = (sent c ++ [req])%list.
Proof. unfold send. destruct (fetch req (world c)). reflexivity. Qed.

Lemma send_token req c : accessToken (fst (send req c)) = accessToken c.
Proof. unfold send. destruct (fetch req (world c)). reflexivity. Qed.


Lemma refresh_sent c :
  sent (fst (refreshAccessToken c)) = (sent c ++ [refreshRequest])%list.
Proof.
  unfold refreshAccessToken. pose proof (send_sent refreshRequest c) as H.
  destruct (send refreshRequest c) as [c1 [res|]]; simpl in H; [|exact H].
  destruct (res_ok res); [|exact H].
  destruct (JSON_parse (res_text res)) as [data|]; [|exact H].
  destruct (accessTokenOf data); exact H.
Qed.

Lemma refresh_holds_token c :
  truthy (snd (refreshAccessToken c)) = true ->
  accessToken (fst (refreshAccessToken c)) = snd (refreshAccessToken c).
Proof.
  unfold refreshAccessToken.
  destruct (send refreshRequest c) as [c1 [res|]]; [|discriminate].
  destruct (res_ok res); [|discriminate].
  destruct (JSON_parse (res_text res)) as [data|]; [|discriminate].
  destruct (accessTokenOf data); [reflexivity|discriminate].
Qed.

Lemma getHeader_setHeader k v l : getHeader k (setHeader k v l) = Some v.
Proof.
  induction l as [|[k' v'] l IH]; simpl.
  - now rewrite String.eqb_refl.
  - destruct (String.eqb k' k) eqn:E; simpl; [now rewrite String.eqb_refl|].
    now rewrite E.
Qed.


(** X23 - A 401 with no token held is not refreshed.  When no token is held
    after the guest step (it was skipped, or it obtained none) and the
    answer is 401, the call rejects with an [ApiError] of status 401
    carrying the message of that answer; no refresh request is sent and no
    retry is made. *)
Theorem unauthenticated_401_not_refreshed e o c c1 res :
  let c0 := if autoGuest e o c then ensureGuest c else c in
  truthy (accessToken c0) = false ->
  doFetch e (opt_body o) (opt_method o) (opt_headers o) c0 = (c1, Some res) ->
  res_status res = 401%Z ->
  apiClient e o c = (c1, inl (buildError res))
  /\ sent c1 = (sent c0 ++ [originalRequest e o c0])%list
  /\ (exists m, buildError res = ApiError 401 m).
Proof.
  intros c0 Ht Hd Hs. unfold apiClient. fold c0. rewrite Hd.
  assert (Htok : accessToken c1 = accessToken c0).
  { unfold doFetch in Hd. pose proof (send_token (originalRequest e o c0) c0) as H.
    unfold originalRequest in H. now rewrite Hd in H. }
  rewrite Htok, Ht, andb_false_r.
  assert (Hok : res_ok res = false).
  { unfold res_ok. rewrite Hs. reflexivity. }
  rewrite Hok. cbn [negb]. split; [reflexivity|]. split.
  - unfold doFetch in Hd. pose proof (send_sent (originalRequest e o c0) c0) as H.
    unfold originalRequest in H. now rewrite Hd in H.
  - unfold buildError. rewrite Hs. eauto.
Qed.

(** X24 - A failed refresh ends the session.  When a token is held, the
    answer is 401 and the refresh yields no token, the call clears the
    in-memory token and rejects with the error of the first answer; the
    request is not retried. *)
Theorem failed_refresh_clears_token e o c c1 res c2 t :
  truthy (accessToken c) = true ->
  doFetch e (opt_body o) (opt_method o) (opt_headers o) c = (c1, Some res) ->
  res_status res = 401%Z ->
  refreshAccessToken c1 = (c2, t) -> truthy t = false ->
  apiClient e o c = (setAccessToken None c2, inl (buildError res))
  /\ accessToken (fst (apiClient e o c)) = None
  /\ sent (fst (apiClient e o c))
     = (sent c ++ [originalRequest e o c; refreshRequest])%list.
Proof.
  intros Ht Hd Hs Hr Hf.
  assert (Hg : autoGuest e o c = false) by (unfold autoGuest; now rewrite Ht).
  assert (Htok : accessToken c1 = accessToken c).
  { unfold doFetch in Hd. pose proof (send_token (originalRequest e o c) c) as H.
    unfold originalRequest in H. now rewrite Hd in H. }
  assert (He : apiClient e o c = (setAccessToken None c2, inl (buildError res))).
  { unfold apiClient. rewrite Hg, Hd, Hs, Htok, Ht. cbn [Z.eqb Pos.eqb andb].
    now rewrite Hr, Hf. }
  rewrite He. repeat split. simpl.
  pose proof (refresh_sent c1) as H2. rewrite Hr in H2. simpl in H2. rewrite H2.
  unfold doFetch in Hd. pose proof (send_sent (originalRequest e o c) c) as H1.
  unfold originalRequest in H1 at 1. rewrite Hd in H1. simpl in H1.
  rewrite H1, <- app_assoc. reflexivity.
Qed.

(** X25 - The retry carries the refreshed token.  When a token is held, the
    answer is 401 and the refresh yields a token, the client holds that
    token, the request is sent once more with [Authorization: Bearer] of
    the new token, and the outcome of the call is that of the retry alone:
    an [ApiError] if it is not ok, its parsed body if it parses, and a
    syntax error otherwise (an empty body is not special-cased here as it
    is for a first answer). *)
Theorem retry_carries_refreshed_token e o c c1 res c2 t c3 retryRes :
  truthy (accessToken c) = true ->
  doFetch e (opt_body o) (opt_method o) (opt_headers o) c = (c1, Some res) ->
  res_status res = 401%Z ->
  refreshAccessToken c1 = (c2, Some t) -> t <> "" ->
  doFetch e (opt_body o) (opt_method o) (opt_headers o) c2 = (c3, Some retryRes) ->
  getHeader "Authorization" (fetch_headers (originalRequest e o c2))
  = Some ("Bearer " ++ t)%string
  /\ accessToken c3 = Some t
  /\ apiClient e o c
     = (c3, if negb (res_ok retryRes) then inl (buildError retryRes)
            else match JSON_parse (res_text retryRes) with
                 | Some j => inr (Some j)
                 | None => inl SyntaxError
                 end).
Proof.
  intros Ht Hd Hs Hr Hne Hd2.
  assert (Hg : autoGuest e o c = false) by (unfold autoGuest; now rewrite Ht).
  assert (Htok : accessToken c1 = accessToken c).
  { unfold doFetch in Hd. pose proof (send_token (originalRequest e o c) c) as H.
    unfold originalRequest in H. now rewrite Hd in H. }
  assert (Htr : truthy (Some t) = true).
  { simpl. apply negb_true_iff. now apply String.eqb_neq. }
  assert (H2 : accessToken c2 = Some t).
  { pose proof (refresh_holds_token c1) as H. rewrite Hr in H. now apply H. }
  split; [|split].
  - unfold originalRequest, requestOf. rewrite H2, Htr. cbn [fetch_headers].
    apply getHeader_setHeader.
  - unfold doFetch in Hd2. pose proof (send_token (originalRequest e o c2) c2) as H.
    unfold originalRequest in H. rewrite Hd2 in H. simpl in H. congruence.
  - unfold apiClient. rewrite Hg, Hd, Hs, Htok, Ht. cbn [Z.eqb Pos.eqb andb].
    rewrite Hr, Htr, Hd2.
    destruct (negb (res_ok retryRes)); [reflexivity|].
    destruct (JSON_parse (res_text retryRes)); reflexivity.
Qed.

End ClientFacts.


Lemma unauthenticated_401_not_refreshed_witness :
  let c := @ApiClient.mkClient Demo.browser None [Some Demo.unauthorized] [] in
  @ApiClient.autoGuest Demo.browser "/auth/login" Demo.getGroups c = false /\
  exists c1,
    @ApiClient.apiClient Demo.browser "/auth/login" Demo.getGroups c
    = (c1, inl (ApiError 401 "msg:expired"))
    /\ length (@ApiClient.sent Demo.browser c1) = 1%nat.
Proof.
  intros c. split; [reflexivity|].
  destruct (@unauthenticated_401_not_refreshed Demo.browser "/auth/login" Demo.getGroups
              c _ Demo.unauthorized eq_refl eq_refl eq_refl) as (Ha & Hs & _).
  eexists. split; [exact Ha|]. rewrite Hs. reflexivity.
Defined.

Lemma failed_refresh_clears_token_witness :
  let c := @ApiClient.mkClient Demo.browser (Some "old")
             [Some Demo.unauthorized; Some Demo.unauthorized] [] in
  truthy (@ApiClient.accessToken Demo.browser c) = true /\
  @ApiClient.accessToken Demo.browser
     (fst (@ApiClient.apiClient Demo.browser "/groups" Demo.getGroups c)) = None /\
  snd (@ApiClient.apiClient Demo.browser "/groups" Demo.getGroups c)
  = inl (ApiError 401 "msg:expired").
Proof.
  intros c. split; [reflexivity|].
  destruct (@failed_refresh_clears_token Demo.browser "/groups" Demo.getGroups c
              _ Demo.unauthorized _ None eq_refl eq_refl eq_refl eq_refl eq_refl)
    as (Ha & Hn & _).
  split; [exact Hn|]. rewrite Ha. reflexivity.
Defined.

Lemma retry_carries_refreshed_token_witness :
  let c := @ApiClient.mkClient Demo.browser (Some "old")
             [Some Demo.unauthorized; Some (Demo.okBody "tok:new");
              Some (Demo.okBody "groups")] [] in
  exists c3,
    @ApiClient.apiClient Demo.browser "/groups" Demo.getGroups c
    = (c3, inr (Some "groups"))
    /\ @ApiClient.accessToken Demo.browser c3 = Some "new".
Proof.
  intros c.
  assert (Hne : "new" <> "") by discriminate.
  destruct (@retry_carries_refreshed_token Demo.browser "/groups" Demo.getGroups c
              _ Demo.unauthorized _ "new" _ (Demo.okBody "groups")
              eq_refl eq_refl eq_refl eq_refl Hne eq_refl) as (_ & Ht & Ha).
  eexists. split; [exact Ha | exact Ht].
Defined.


(* ------------------------------------------------------------------------- *)
(** ** Outcomes of the refresh endpoint; a collision during registration *)

Section Edges.
Context {R : Runtime}.



End Edges.


